(** * GitHub context handler: the query-resolution pipeline

    A shallow embedding of [src/github_handler.py] (class [GitHubHandler]):
    the identifier extractor [_extract_repo_info], the relevance ranker
    [_filter_relevant_files], the error envelope [_create_error_response]
    and the orchestrator [process_query]; and of the endpoint
    [handle_mcp_query] of [src/server.py] that calls it.

    Conventions of the embedding.
    - A Python [str] is a [string]; its characters are read as the code
      points U+0000..U+00FF, on which [lower] and [split] below agree with
      [str.lower] and [str.split].
    - The relevance score is a Python number built from [0], [+= 1] and
      [+= 0.5]; it is a rational here ([Q]), on which those sums are exact.
    - A Python exception is an [exn]; a computation that may raise returns
      an [outcome].
    - Calls to the hosting provider and readings of the clock are effects:
      they are threaded through a [world] that records every provider call
      and counts the clock readings. *)

From Stdlib Require Import String Ascii List ZArith QArith Lia.
From stdpp Require Import gmap strings.

Local Open Scope string_scope.

(** ** Python strings *)

Module Str.

(** [str.isupper] on one character, for code points below 256:
    A..Z, and the Latin-1 capitals U+00C0..U+00DE except U+00D7. *)
Definition is_upper (c : ascii) : bool :=
  let n := N_of_ascii c in
  ((65 <=? n) && (n <=? 90) || (192 <=? n) && (n <=? 222) && negb (n =? 215))%N.

Definition lower_char (c : ascii) : ascii :=
  if is_upper c then ascii_of_N (N_of_ascii c + 32) else c.

(** [s.lower()] *)
Fixpoint lower (s : string) : string :=
  match s with
  | EmptyString => EmptyString
  | String c s' => String (lower_char c) (lower s')
  end.

(** [str.isspace] on one character, for code points below 256:
    U+0009..U+000D, U+001C..U+0020, U+0085 and U+00A0. *)
Definition is_space (c : ascii) : bool :=
  let n := N_of_ascii c in
  ((9 <=? n) && (n <=? 13) || (28 <=? n) && (n <=? 32) || (n =? 133) || (n =? 160))%N.

(** One pass of [s.split()]: [word] is the run of non-blank characters
    read so far. *)
Fixpoint split_from (word : string) (s : string) : list string :=
  match s with
  | EmptyString => if word =? "" then [] else [word]
  | String c s' =>
      if is_space c
      then (if word =? "" then split_from "" s' else word :: split_from "" s')
      else split_from (word ++ String c "") s'
  end.

(** [s.split()]: the maximal runs of non-blank characters, in order. *)
Definition split (s : string) : list string := split_from "" s.

(** [sub in s] *)
Fixpoint contains (sub s : string) : bool :=
  String.prefix sub s ||
  match s with
  | EmptyString => false
  | String _ s' => contains sub s'
  end.

(** [s.endswith(suffix)] *)
Definition endswith (s suffix : string) : bool :=
  (String.length suffix <=? String.length s)%nat &&
  (substring (String.length s - String.length suffix) (String.length suffix) s =? suffix).

(** [s.endswith((suffix1, suffix2, ...))] *)
Definition endswith_any (s : string) (suffixes : list string) : bool :=
  existsb (endswith s) suffixes.

(** Empty, or made of blank characters only. *)
Fixpoint is_blank (s : string) : bool :=
  match s with
  | EmptyString => true
  | String c s' => is_space c && is_blank s'
  end.

End Str.

(** ** The pattern [([a-zA-Z0-9-]+/[a-zA-Z0-9-_.]+)] *)

Module Re.

Definition is_alnum (c : ascii) : bool :=
  let n := N_of_ascii c in
  ((97 <=? n) && (n <=? 122) || (65 <=? n) && (n <=? 90) || (48 <=? n) && (n <=? 57))%N.

(** The class [[a-zA-Z0-9-]]. *)
Definition owner_char (c : ascii) : bool :=
  is_alnum c || (c =? "-")%char.

(** The class [[a-zA-Z0-9-_.]]: after the range [0-9] the hyphen is a
    literal, and so are the underscore and the dot. *)
Definition name_char (c : ascii) : bool :=
  is_alnum c || (c =? "-")%char || (c =? "_")%char || (c =? ".")%char.

(** The longest prefix of [s] made of characters of a class, and what
    follows it. *)
Fixpoint span (p : ascii -> bool) (s : string) : string * string :=
  match s with
  | EmptyString => (EmptyString, EmptyString)
  | String c s' =>
      if p c then let (run, rest) := span p s' in (String c run, rest)
      else (EmptyString, s)
  end.

(** The match of the pattern anchored at the start of [s].  Both [+] are
    greedy.  The slash is in neither class, so the only length of the
    first run that can be followed by a slash is the longest one, and no
    backtracking into the first run can succeed. *)
Definition match_here (s : string) : option string :=
  match span owner_char s with
  | (String _ _ as owner, String "/" rest) =>
      match span name_char rest with
      | (String _ _ as name, _) => Some (owner ++ "/" ++ name)
      | _ => None
      end
  | _ => None
  end.

(** [re.search(repo_pattern, s)], reduced to [match.group(1)]: the match
    at the leftmost position that has one. *)
Fixpoint search (s : string) : option string :=
  match match_here s with
  | Some m => Some m
  | None =>
      match s with
      | EmptyString => None
      | String _ s' => search s'
      end
  end.

End Re.

(** ** Python values, exceptions *)

(** The values a context mapping of type [Dict[str, Any]] holds here:
    [None], booleans, integers and strings. *)
Inductive pyval :=
| PyNone
| PyBool (b : bool)
| PyInt (n : Z)
| PyStr (s : string).

(** Truth value of an object, as tested by [if v] and [not v]. *)
Definition truthy (v : pyval) : bool :=
  match v with
  | PyNone => false
  | PyBool b => b
  | PyInt n => negb (n =? 0)%Z
  | PyStr s => negb (s =? "")
  end.

(** An instance of [Exception]; [exn_str e] is [str(e)]. *)
Record exn := Exception { exn_str : string }.

Inductive outcome (A : Type) :=
| Return (a : A)
| Raise (e : exn).
Arguments Return {A} a.
Arguments Raise {A} e.

(** ** The hosting provider's objects *)

(** An entry of a repository listing ([github.ContentFile]).  The handler
    reads [name], [path], [html_url], [size] and [decoded_content]; the
    last is a property whose evaluation may raise.  [url] is the entry's
    API address. *)
Module ContentFile.
Record t := {
  name : string;
  path : string;
  url : string;
  html_url : string;
  size : Z;
  decoded_content : outcome (list Byte.byte)
}.
End ContentFile.

(** A repository ([github.Repository]); [get_contents path] is the listing
    of the directory [path], or the exception the call raises. *)
Module Repository.
Record t := {
  name : string;
  description : option string;
  stargazers_count : Z;
  forks_count : Z;
  language : option string;
  html_url : string;
  get_contents : string -> outcome (list ContentFile.t)
}.
End Repository.

(** The provider client ([github.Github]). *)
Module Github.
Record t := {
  get_repo : pyval -> outcome Repository.t
}.
End Github.

Record GitHubHandler := { github : Github.t }.

(** What the handler takes from the language runtime and from the provider
    library rather than from the repository's own code. *)
Record Runtime := {
  (** [datetime.now(timezone.utc).isoformat()] at the [n]-th reading of the
      clock *)
  utcnow_isoformat : nat -> string;
  (** [bytes.decode('utf-8')] *)
  decode_utf8 : list Byte.byte -> outcome string;
  (** [f == g] on two entries *)
  file_eq : ContentFile.t -> ContentFile.t -> bool;
  (** [f < g] on two entries *)
  file_lt : ContentFile.t -> ContentFile.t -> outcome bool
}.

(** ** Content items *)

Record Metadata := { source : string; timestamp : string }.

(** The value under the key ["content"] of an item. *)
Inductive Content :=
| RepositoryInfo (name : string) (description : option string)
    (stars forks : Z) (language : option string) (url : string)
| FileContent (name path url content : string)
| ErrorMessage (message : string).

Record Item := {
  item_type : string;
  item_content : Content;
  item_metadata : Metadata
}.

(** ** Effects *)

Inductive call :=
| GetRepo (full_name_or_id : pyval)
| GetContents (path : string)
| DecodedContent (file : ContentFile.t).

Record world := {
  calls : list call;      (** the provider calls made so far, oldest first *)
  clock_reads : nat       (** how many times the clock has been read *)
}.

Definition M (A : Type) : Type := world -> outcome A * world.

Definition ret {A} (a : A) : M A := fun w => (Return a, w).

Definition raise {A} (e : exn) : M A := fun w => (Raise e, w).

Definition bind {A B} (m : M A) (k : A -> M B) : M B :=
  fun w =>
    match m w with
    | (Return a, w') => k a w'
    | (Raise e, w') => (Raise e, w')
    end.

(** [try: body / except Exception as e: handler e].  What the body did to
    the world before it raised stays done. *)
Definition try_except {A} (body : M A) (handler : exn -> M A) : M A :=
  fun w =>
    match body w with
    | (Return a, w') => (Return a, w')
    | (Raise e, w') => handler e w'
    end.

(** A computation that may raise but touches neither the provider nor the
    clock. *)
Definition lift {A} (o : outcome A) : M A := fun w => (o, w).

(** A provider call: recorded, then returned or raised. *)
Definition provider {A} (c : call) (result : outcome A) : M A :=
  fun w => (result, {| calls := calls w ++ [c]; clock_reads := clock_reads w |}).

Definition now (rt : Runtime) : M string :=
  fun w => (Return (utcnow_isoformat rt (clock_reads w)),
            {| calls := calls w; clock_reads := S (clock_reads w) |}).

Definition obind {A B} (o : outcome A) (k : A -> outcome B) : outcome B :=
  match o with
  | Return a => k a
  | Raise e => Raise e
  end.

Declare Scope py_scope.
Delimit Scope py_scope with py.
Notation "x <- m ;; k" := (bind m (fun x => k))
  (at level 100, m at next level, right associativity) : py_scope.
Notation "x <~ o ;; k" := (obind o (fun x => k))
  (at level 100, o at next level, right associativity) : py_scope.
Local Open Scope py_scope.

(** ** Identifier extractor *)

Definition _extract_repo_info (query : string)
    (context : option (gmap string pyval)) : pyval :=
  (* if context and "repository" in context: return context["repository"] *)
  let from_context :=
    match context with
    | Some d => if bool_decide (d ≠ ∅) then d !! "repository" else None
    | None => None
    end in
  match from_context with
  | Some v => v
  | None =>
      match Re.search query with
      | Some m => PyStr m
      | None => PyNone
      end
  end.

(** ** Relevance ranker *)

Definition bonus_extensions : list string :=
  [".md"; ".txt"; ".py"; ".js"; ".java"].

(** The inner loop: one point for each query term found in the name. *)
Definition term_matches (query_terms : list string) (filename : string) : Q :=
  fold_left
    (fun score term => if Str.contains term filename then (score + 1)%Q else score)
    query_terms 0%Q.

(** The score the loop body gives one entry. *)
Definition file_score (query_terms : list string) (file : ContentFile.t) : Q :=
  let filename := Str.lower (ContentFile.name file) in
  let score := term_matches query_terms filename in
  if Str.endswith_any filename bonus_extensions
  then (score + (1 # 2))%Q else score.

(** The test that grants the bonus. *)
Definition has_bonus (file : ContentFile.t) : bool :=
  Str.endswith_any (Str.lower (ContentFile.name file)) bonus_extensions.

(** [score > 0] *)
Definition score_positive (score : Q) : bool := negb (Qle_bool score 0%Q).

(** The list [scored_files] when the loop over [files] ends. *)
Fixpoint scored_files (query_terms : list string) (files : list ContentFile.t)
    : list (Q * ContentFile.t) :=
  match files with
  | [] => []
  | file :: rest =>
      let score := file_score query_terms file in
      if score_positive score
      then (score, file) :: scored_files query_terms rest
      else scored_files query_terms rest
  end.

(** [a < b] on two pairs [(score, file)]: the first components decide when
    they differ; when they are equal the second components are compared,
    first with [==], then with [<]. *)
Definition tuple_lt (rt : Runtime) (a b : Q * ContentFile.t) : outcome bool :=
  if negb (Qeq_bool (fst a) (fst b)) then
    Return (negb (Qle_bool (fst b) (fst a)))
  else if file_eq rt (snd a) (snd b) then
    Return false
  else
    file_lt rt (snd a) (snd b).

(** Insertion of [x] into a sorted list, after the elements that are not
    greater than it. *)
Fixpoint insort {A} (lt : A -> A -> outcome bool) (x : A) (l : list A)
    : outcome (list A) :=
  match l with
  | [] => Return [x]
  | y :: l' =>
      b <~ lt x y ;;
      if b then Return (x :: y :: l')
      else (r <~ insort lt x l' ;; Return (y :: r))
  end.

(** A stable ascending sort that uses [<] only, and raises as soon as a
    comparison does. *)
Definition list_sort {A} (lt : A -> A -> outcome bool) (l : list A)
    : outcome (list A) :=
  fold_left (fun acc x => sorted <~ acc ;; insort lt x sorted) l (Return []).

(** [sorted(l, reverse=True)]: the list is reversed, sorted, and reversed
    again, so that equal elements keep their order. *)
Definition sorted_reverse {A} (lt : A -> A -> outcome bool) (l : list A)
    : outcome (list A) :=
  r <~ list_sort lt (rev l) ;; Return (rev r).

Definition _filter_relevant_files (rt : Runtime) (files : list ContentFile.t)
    (query : string) : outcome (list ContentFile.t) :=
  let query_terms := Str.split (Str.lower query) in
  ranked <~ sorted_reverse (tuple_lt rt) (scored_files query_terms files) ;;
  Return (map snd ranked).

(** ** Error envelope *)

Definition github_metadata (ts : string) : Metadata :=
  {| source := "github"; timestamp := ts |}.

Definition error_item (error_message ts : string) : Item :=
  {| item_type := "error";
     item_content := ErrorMessage error_message;
     item_metadata := github_metadata ts |}.

Definition _create_error_response (rt : Runtime) (error_message : string)
    : M (list Item) :=
  ts <- now rt ;;
  ret [error_item error_message ts].

(** ** Query resolver *)

(** The value under ["content"]["content"] of a file item. *)
Definition file_text (rt : Runtime) (file : ContentFile.t) : M string :=
  if (ContentFile.size file <? 100000)%Z then
    bytes <- provider (DecodedContent file) (ContentFile.decoded_content file) ;;
    lift (decode_utf8 rt bytes)
  else
    ret "File too large".

Definition file_content_item (file : ContentFile.t) (text ts : string) : Item :=
  {| item_type := "file_content";
     item_content :=
       FileContent (ContentFile.name file) (ContentFile.path file)
         (ContentFile.html_url file) text;
     item_metadata := github_metadata ts |}.

(** The item one turn of the loop appends. *)
Definition file_item (rt : Runtime) (file : ContentFile.t) : M Item :=
  text <- file_text rt file ;;
  ts <- now rt ;;
  ret (file_content_item file text ts).

(** [for file in files: content.append(...)] *)
Fixpoint append_file_items (rt : Runtime) (files : list ContentFile.t)
    (content : list Item) : M (list Item) :=
  match files with
  | [] => ret content
  | file :: rest =>
      item <- file_item rt file ;;
      append_file_items rt rest (content ++ [item])
  end.

Definition repository_item (repo : Repository.t) (ts : string) : Item :=
  {| item_type := "repository_info";
     item_content :=
       RepositoryInfo (Repository.name repo) (Repository.description repo)
         (Repository.stargazers_count repo) (Repository.forks_count repo)
         (Repository.language repo) (Repository.html_url repo);
     item_metadata := github_metadata ts |}.

Definition process_query (rt : Runtime) (self : GitHubHandler)
    (query : string) (context : option (gmap string pyval)) : M (list Item) :=
  try_except
    (let repo_info := _extract_repo_info query context in
     if negb (truthy repo_info) then
       _create_error_response rt "No repository information found in query"
     else
       repo <- provider (GetRepo repo_info)
                 (Github.get_repo (github self) repo_info) ;;
       ts <- now rt ;;
       let content := [repository_item repo ts] in
       search_results <- provider (GetContents "")
                           (Repository.get_contents repo "") ;;
       relevant_files <- lift (_filter_relevant_files rt search_results query) ;;
       append_file_items rt (take 5 relevant_files) content)
    (fun e => _create_error_response rt (exn_str e)).

(** ** Shapes of a response *)

(** Exactly one item, of kind [error]. *)
Definition error_response (items : list Item) : bool :=
  match items with
  | [item] => item_type item =? "error"
  | _ => false
  end.

(** One [repository_info] item, then at most five items, all of kind
    [file_content]. *)
Definition success_response (items : list Item) : bool :=
  match items with
  | info :: files =>
      (item_type info =? "repository_info") &&
      forallb (fun item => item_type item =? "file_content") files &&
      (length files <=? 5)%nat
  | [] => false
  end.

(** What reading the text of an entry yields, apart from its effect on the
    world: the decoded bytes below the size bound, the placeholder from
    the bound on. *)
Definition text_outcome (rt : Runtime) (file : ContentFile.t) : outcome string :=
  if (ContentFile.size file <? 100000)%Z then
    bytes <~ ContentFile.decoded_content file ;; decode_utf8 rt bytes
  else
    Return "File too large".

(** The world once the text of an entry has been read: the fetch is
    recorded below the size bound, nothing is from the bound on. *)
Definition fetched (file : ContentFile.t) (w : world) : world :=
  if (ContentFile.size file <? 100000)%Z then
    {| calls := calls w ++ [DecodedContent file]; clock_reads := clock_reads w |}
  else w.

(** The world after one more reading of the clock. *)
Definition tick (w : world) : world :=
  {| calls := calls w; clock_reads := S (clock_reads w) |}.

(** The first provider operation that fails during a resolution, and the
    exception it raises. *)
Inductive provider_failure (rt : Runtime) (self : GitHubHandler)
    (query : string) (context : option (gmap string pyval)) (e : exn) : Prop :=
| metadata_fetch_fails :
    truthy (_extract_repo_info query context) = true ->
    Github.get_repo (github self) (_extract_repo_info query context) = Raise e ->
    provider_failure rt self query context e
| listing_fetch_fails repo :
    truthy (_extract_repo_info query context) = true ->
    Github.get_repo (github self) (_extract_repo_info query context) = Return repo ->
    Repository.get_contents repo "" = Raise e ->
    provider_failure rt self query context e
| content_fetch_fails repo search_results relevant_files done file rest :
    truthy (_extract_repo_info query context) = true ->
    Github.get_repo (github self) (_extract_repo_info query context) = Return repo ->
    Repository.get_contents repo "" = Return search_results ->
    _filter_relevant_files rt search_results query = Return relevant_files ->
    take 5 relevant_files = (done ++ file :: rest)%list ->
    Forall (fun f => exists text, text_outcome rt f = Return text) done ->
    text_outcome rt file = Raise e ->
    provider_failure rt self query context e.

(** ** Sample data

    The runtime of the examples.  A [github.ContentFile] compares equal to
    another by its API address and defines no ordering, so that [f < g]
    raises [TypeError].  The sample decoder is exact on the bytes below
    0x80, which is all the examples give it. *)

Definition unorderable : exn :=
  Exception "'<' not supported between instances of 'ContentFile' and 'ContentFile'".

Definition decode_ascii (bytes : list Byte.byte) : outcome string :=
  if forallb (fun b => (Byte.to_N b <? 128)%N) bytes
  then Return (string_of_list_byte bytes)
  else Raise (Exception "'utf-8' codec can't decode bytes").

Definition pygithub : Runtime :=
  {| utcnow_isoformat := fun _ => "2024-01-01T00:00:00+00:00";
     decode_utf8 := decode_ascii;
     file_eq := fun f g => ContentFile.url f =? ContentFile.url g;
     file_lt := fun _ _ => Raise unorderable |}.

(** A listing entry of [octocat/Hello-World] with the given name, size and
    text. *)
Definition entry (name : string) (size : Z) (text : string) : ContentFile.t :=
  {| ContentFile.name := name;
     ContentFile.path := name;
     ContentFile.url :=
       "https://api.github.com/repos/octocat/Hello-World/contents/" ++ name;
     ContentFile.html_url :=
       "https://github.com/octocat/Hello-World/blob/master/" ++ name;
     ContentFile.size := size;
     ContentFile.decoded_content := Return (list_byte_of_string text) |}.

Definition readme_md : ContentFile.t := entry "README.md" 13 "Hello World!".
Definition src_dir : ContentFile.t :=
  {| ContentFile.name := "src";
     ContentFile.path := "src";
     ContentFile.url :=
       "https://api.github.com/repos/octocat/Hello-World/contents/src";
     ContentFile.html_url :=
       "https://github.com/octocat/Hello-World/tree/master/src";
     ContentFile.size := 0;
     ContentFile.decoded_content := Raise (Exception "unsupported encoding: None") |}.
Definition license_txt : ContentFile.t := entry "LICENSE.txt" 1071 "MIT License".
Definition contributing_md : ContentFile.t := entry "CONTRIBUTING.md" 26 "Pull requests are welcome.".
Definition readme_upper : ContentFile.t := entry "README.MD" 13 "Hello World!".

Definition hello_world (listing : outcome (list ContentFile.t)) : Repository.t :=
  {| Repository.name := "Hello-World";
     Repository.description := Some "My first repository on GitHub!";
     Repository.stargazers_count := 2500;
     Repository.forks_count := 1800;
     Repository.language := None;
     Repository.html_url := "https://github.com/octocat/Hello-World";
     Repository.get_contents := fun _ => listing |}.

(** A client that knows one repository. *)
Definition client (listing : outcome (list ContentFile.t)) : GitHubHandler :=
  {| github := {| Github.get_repo := fun _ => Return (hello_world listing) |} |}.

(** A client for which [get_repo] raises. *)
Definition failing_client (e : exn) : GitHubHandler :=
  {| github := {| Github.get_repo := fun _ => Raise e |} |}.

Definition initial_world : world := {| calls := []; clock_reads := 0 |}.

(** ** The language of the pattern *)

Module Pattern.

(** Every character of [s] is of the class [p]. *)
Fixpoint all_chars (p : ascii -> bool) (s : string) : bool :=
  match s with
  | EmptyString => true
  | String c s' => p c && all_chars p s'
  end.

(** [s] begins with a match of the pattern: a non-empty run of the first
    class, a slash, a non-empty run of the second class. *)
Definition starts (s : string) : Prop :=
  exists owner name rest,
    s = owner ++ "/" ++ name ++ rest /\
    owner <> "" /\ all_chars Re.owner_char owner = true /\
    name <> "" /\ all_chars Re.name_char name = true.

End Pattern.

(** ** Orders on scores *)

(** No score is followed by a greater one. *)
Fixpoint descending (scores : list Q) : Prop :=
  match scores with
  | [] => True
  | score :: rest => Forall (fun later => (later <= score)%Q) rest /\ descending rest
  end.

(** No score is followed by a smaller one. *)
Fixpoint ascending (scores : list Q) : Prop :=
  match scores with
  | [] => True
  | score :: rest => Forall (fun later => (score <= later)%Q) rest /\ ascending rest
  end.

(** [R] holds between every element and every later one. *)
Fixpoint pairwise {A} (R : A -> A -> Prop) (l : list A) : Prop :=
  match l with
  | [] => True
  | x :: rest => Forall (R x) rest /\ pairwise R rest
  end.

(** No two scores of the list are equal. *)
Definition distinct_scores (scores : list Q) : Prop :=
  pairwise (fun score other => ~ score == other) scores.

(** Two scores of the list are equal. *)
Fixpoint tied (scores : list Q) : Prop :=
  match scores with
  | [] => False
  | score :: rest => Exists (fun other => score == other) rest \/ tied rest
  end.

(** No two entries of the listing are equal for [==]. *)
Definition unequal_entries (rt : Runtime) (files : list ContentFile.t) : Prop :=
  pairwise (fun f g => file_eq rt f g = false /\ file_eq rt g f = false) files.

(** The entries that pass the score filter. *)
Definition kept (query_terms : list string) (files : list ContentFile.t)
    : list ContentFile.t :=
  List.filter (fun file => score_positive (file_score query_terms file)) files.

(** ** The endpoint ([server.py]) *)

Module MCPRequest.
Record t := {
  query : string;
  context : option (gmap string pyval)
}.
End MCPRequest.

Module MCPResponse.
Record t := {
  content : list Item;
  metadata : gmap string pyval
}.
End MCPResponse.

Module HTTPException.
Record t := {
  status_code : Z;
  detail : string
}.
End HTTPException.

(** What the endpoint takes from its process and from its libraries. *)
Record Environment := {
  (** [os.getenv], once [load_dotenv()] has run *)
  getenv : string -> option string;
  (** [Github(token)] *)
  Github_new : string -> outcome Github.t;
  (** [str(e)] for an [HTTPException] *)
  http_exception_str : HTTPException.t -> string
}.

(** [GitHubHandler(token)] *)
Definition GitHubHandler_new (env : Environment) (token : string)
    : outcome GitHubHandler :=
  client <~ Github_new env token ;; Return {| github := client |}.

(** What the body of the [try] of the endpoint may raise. *)
Inductive raised :=
| RaisedHTTP (e : HTTPException.t)
| RaisedException (e : exn).

(** [str(e)] in the [except] clause of the endpoint. *)
Definition raised_str (env : Environment) (r : raised) : string :=
  match r with
  | RaisedHTTP e => http_exception_str env e
  | RaisedException e => exn_str e
  end.

Definition token_not_found : HTTPException.t :=
  {| HTTPException.status_code := 500;
     HTTPException.detail := "GitHub token not found in environment variables" |}.

Definition success_metadata : gmap string pyval :=
  {[ "status" := PyStr "success";
     "source" := PyStr "github-mcp-server";
     "version" := PyStr "0.1.0" ]}.

(** The body of the [try] of [handle_mcp_query]. *)
Definition handle_mcp_query_body (env : Environment) (rt : Runtime)
    (request : MCPRequest.t) (w : world) : (raised + MCPResponse.t) * world :=
  match getenv env "GITHUB_TOKEN" with
  | Some github_token =>
      if github_token =? "" then (inl (RaisedHTTP token_not_found), w)
      else
        match GitHubHandler_new env github_token with
        | Raise e => (inl (RaisedException e), w)
        | Return handler =>
            match process_query rt handler (MCPRequest.query request)
                    (MCPRequest.context request) w with
            | (Return content, w') =>
                (inr {| MCPResponse.content := content;
                        MCPResponse.metadata := success_metadata |}, w')
            | (Raise e, w') => (inl (RaisedException e), w')
            end
        end
  | None => (inl (RaisedHTTP token_not_found), w)
  end.

(** What the endpoint hands to the framework: a response, or the
    [HTTPException] it raises. *)
Inductive reply :=
| Respond (response : MCPResponse.t)
| Fail (e : HTTPException.t).

Definition handle_mcp_query (env : Environment) (rt : Runtime)
    (request : MCPRequest.t) (w : world) : reply * world :=
  match handle_mcp_query_body env rt request w with
  | (inr response, w') => (Respond response, w')
  | (inl r, w') =>
      (Fail {| HTTPException.status_code := 500;
               HTTPException.detail := raised_str env r |}, w')
  end.

(** ** More sample data *)

(** The sample runtime with a clock whose readings differ. *)
Definition ticking : Runtime :=
  {| utcnow_isoformat := fun n =>
       "2024-01-01T00:00:0" ++ String (ascii_of_nat (48 + n)) "+00:00";
     decode_utf8 := decode_utf8 pygithub;
     file_eq := file_eq pygithub;
     file_lt := file_lt pygithub |}.

Definition sample_query : string := "Show me README in octocat/Hello-World".

Definition sample_listing : list ContentFile.t :=
  [readme_md; src_dir; license_txt].

(** A process environment with the given value of [GITHUB_TOKEN], a client
    constructor that returns the sample client, and a [str] that prints an
    [HTTPException] of status 500 as its status, a colon and its detail. *)
Definition sample_env (token : option string) : Environment :=
  {| getenv := fun name => if name =? "GITHUB_TOKEN" then token else None;
     Github_new := fun _ => Return (github (client (Return sample_listing)));
     http_exception_str := fun e =>
       (if (HTTPException.status_code e =? 500)%Z then "500" else "?") ++
       ": " ++ HTTPException.detail e |}.

(** * Properties *)

(** ** Strings *)

Module StrFacts.
Import Str.

Lemma substring_whole s : substring 0 (String.length s) s = s.
Proof. induction s as [|c s IH]; cbn; [done | by rewrite IH]. Qed.

Lemma substring_skip stem : forall s m,
  substring (String.length stem) m (stem ++ s) = substring 0 m s.
Proof. induction stem as [|c stem IH]; intros s m; cbn; [done | apply IH]. Qed.

Lemma length_append s1 s2 :
  String.length (s1 ++ s2) = (String.length s1 + String.length s2)%nat.
Proof. induction s1 as [|c s1 IH]; simpl; [done | by rewrite IH]. Qed.

Lemma substring_cut s : forall n,
  (n <= String.length s)%nat ->
  s = substring 0 n s ++ substring n (String.length s - n) s.
Proof.
  induction s as [|c s IH]; intros [|n] Hn; simpl in *; try lia.
  - done.
  - by rewrite substring_whole.
  - change (String c s =
            String c (substring 0 n s ++ substring n (String.length s - n) s)).
    f_equal. apply IH. lia.
Qed.

(** [endswith] holds exactly of the strings that are a stem followed by
    the suffix. *)
Lemma endswith_spec s suffix :
  endswith s suffix = true <-> exists stem, s = stem ++ suffix.
Proof.
  unfold endswith. rewrite andb_true_iff, Nat.leb_le, String.eqb_eq. split.
  - intros [Hlen Hsub].
    exists (substring 0 (String.length s - String.length suffix) s).
    pose proof (substring_cut s (String.length s - String.length suffix)) as Hcut.
    replace (String.length s - (String.length s - String.length suffix))%nat
      with (String.length suffix) in Hcut by lia.
    rewrite Hsub in Hcut. apply Hcut. lia.
  - intros [stem ->]. rewrite length_append. split; [lia|].
    replace (String.length stem + String.length suffix - String.length suffix)%nat
      with (String.length stem) by lia.
    rewrite substring_skip. apply substring_whole.
Qed.

Lemma endswith_any_spec s suffixes :
  endswith_any s suffixes = true <->
  exists stem suffix, In suffix suffixes /\ s = stem ++ suffix.
Proof.
  unfold endswith_any. rewrite existsb_exists. split.
  - intros (suffix & Hin & [stem ->]%endswith_spec). eauto.
  - intros (stem & suffix & Hin & ->). exists suffix.
    split; [done|]. apply endswith_spec. eauto.
Qed.

Lemma lower_char_space c : is_space c = true -> lower_char c = c.
Proof.
  destruct c as [[] [] [] [] [] [] [] []]; try discriminate; reflexivity.
Qed.

(** A blank text has no terms. *)
Lemma split_blank s : is_blank s = true -> split (lower s) = [].
Proof.
  unfold split. induction s as [|c s IH]; cbn; [done|].
  intros [Hc Hs]%andb_true_iff.
  rewrite (lower_char_space c Hc), Hc. cbn. auto.
Qed.

End StrFacts.

(** ** The ranker *)

Section Ranker.
Context (rt : Runtime).

Lemma sorted_reverse_nil {A} (lt : A -> A -> outcome bool) :
  sorted_reverse lt [] = Return [].
Proof. reflexivity. Qed.

Lemma sorted_reverse_one {A} (lt : A -> A -> outcome bool) x :
  sorted_reverse lt [x] = Return [x].
Proof. reflexivity. Qed.

(** With no terms the score is the bonus alone. *)
Lemma file_score_no_terms file :
  file_score [] file = if has_bonus file then (0 + (1 # 2))%Q else 0%Q.
Proof. reflexivity. Qed.

Lemma scored_files_no_terms files :
  map snd (scored_files [] files) = List.filter has_bonus files.
Proof.
  induction files as [|file rest IH]; [done|].
  cbn [scored_files List.filter]. rewrite file_score_no_terms.
  destruct (has_bonus file).
  - change (score_positive (0 + (1 # 2))%Q) with true. cbn [map snd]. by rewrite IH.
  - change (score_positive 0%Q) with false. done.
Qed.

(** C5 (amended).  With a query that has no terms every entry scores 0.5 if
    its lower-cased name ends in a bonus extension and 0 otherwise, and the
    score filter keeps exactly the former, in their order.  The ranker then
    returns the empty list when no entry has a bonus extension, and the one
    entry that has one when there is exactly one. *)
Theorem no_terms_ranking files query :
  Str.split (Str.lower query) = [] ->
  (forall file,
     file_score (Str.split (Str.lower query)) file ==
     if has_bonus file then 1 # 2 else 0) /\
  map snd (scored_files (Str.split (Str.lower query)) files) =
    List.filter has_bonus files /\
  (List.filter has_bonus files = [] ->
   _filter_relevant_files rt files query = Return []) /\
  (forall file,
     List.filter has_bonus files = [file] ->
     _filter_relevant_files rt files query = Return [file]).
Proof.
  intros Hterms. unfold _filter_relevant_files. rewrite Hterms.
  pose proof (scored_files_no_terms files) as Hkept.
  split; [|split; [|split]].
  - intros file. rewrite file_score_no_terms. by destruct (has_bonus file).
  - done.
  - intros Hnone. rewrite Hnone in Hkept.
    destruct (scored_files [] files); [done | discriminate].
  - intros file Hone. rewrite Hone in Hkept.
    destruct (scored_files [] files) as [|[score f] [|? ?]]; try discriminate.
    injection Hkept as ->. reflexivity.
Qed.

(** C6 (amended).  The half point is added exactly when the lower-cased
    name of the entry ends with one of the suffixes .md, .txt, .py, .js,
    .java: the test is made on the name after it has been lower-cased. *)
Theorem extension_bonus query_terms file :
  let filename := Str.lower (ContentFile.name file) in
  ((exists stem suffix,
      In suffix bonus_extensions /\ filename = stem ++ suffix) ->
   file_score query_terms file =
     (term_matches query_terms filename + (1 # 2))%Q) /\
  (~ (exists stem suffix,
        In suffix bonus_extensions /\ filename = stem ++ suffix) ->
   file_score query_terms file = term_matches query_terms filename).
Proof.
  intros filename. unfold file_score. fold filename.
  destruct (Str.endswith_any filename bonus_extensions) eqn:Hends.
  - split; [done|]. intros Hnot. destruct Hnot.
    by apply StrFacts.endswith_any_spec.
  - split; [|done]. intros Hsome%StrFacts.endswith_any_spec. congruence.
Qed.

(** Two entries with the same score make the sort compare the entries
    themselves. *)
Lemma tied_pair_compared f g query :
  let query_terms := Str.split (Str.lower query) in
  score_positive (file_score query_terms f) = true ->
  Qeq_bool (file_score query_terms f) (file_score query_terms g) = true ->
  file_eq rt f g = false ->
  _filter_relevant_files rt [f; g] query =
  (b <~ file_lt rt f g ;; Return (if b then [g; f] else [f; g])).
Proof.
  intros query_terms Hpos Htie Hne.
  assert (score_positive (file_score query_terms g) = true) as Hpos'.
  { unfold score_positive in *.
    by rewrite <- (Qleb_comp _ _ (Qeq_bool_eq _ _ Htie) 0%Q 0%Q (Qeq_refl _)). }
  unfold _filter_relevant_files. fold query_terms.
  cbn [scored_files]. rewrite Hpos, Hpos'.
  unfold sorted_reverse, list_sort. cbn [rev app fold_left obind insort].
  unfold tuple_lt. cbn [fst snd]. rewrite Htie, Hne. cbn [negb].
  destruct (file_lt rt f g) as [[]|]; reflexivity.
Qed.

(** C4 (amended).  For the query "Show me README in octocat/Hello-World"
    without context the extractor returns "octocat/Hello-World"; the ranker
    scores "README.md" at 2.5 (the terms "me" and "readme" are both found in
    "readme.md", plus the bonus), "LICENSE.txt" at 0.5 (the bonus alone) and
    "src" at 0, and it returns "README.md" followed by "LICENSE.txt". *)
Theorem example_ranking :
  let query := "Show me README in octocat/Hello-World" in
  let query_terms := Str.split (Str.lower query) in
  _extract_repo_info query None = PyStr "octocat/Hello-World" /\
  file_score query_terms readme_md == 5 # 2 /\
  file_score query_terms license_txt == 1 # 2 /\
  file_score query_terms src_dir == 0 /\
  _filter_relevant_files rt [readme_md; src_dir; license_txt] query =
    Return [readme_md; license_txt].
Proof. repeat split. Qed.

End Ranker.

(** ** One turn of the loop *)

Section Loop.
Context (rt : Runtime).

Lemma file_text_run file w :
  file_text rt file w = (text_outcome rt file, fetched file w).
Proof.
  unfold file_text, text_outcome, fetched.
  destruct (ContentFile.size file <? 100000)%Z; [|reflexivity].
  unfold bind, provider, lift.
  destruct (ContentFile.decoded_content file); reflexivity.
Qed.

Lemma file_item_run file w :
  file_item rt file w =
  match text_outcome rt file with
  | Return text =>
      (Return (file_content_item file text
                 (utcnow_isoformat rt (clock_reads (fetched file w)))),
       tick (fetched file w))
  | Raise e => (Raise e, fetched file w)
  end.
Proof.
  unfold file_item, bind. rewrite file_text_run.
  destruct (text_outcome rt file); reflexivity.
Qed.

(** When the loop ends normally it has appended one [file_content] item
    per entry, in order, each carrying the text read for its entry. *)
Lemma append_file_items_return files : forall content w items w',
  append_file_items rt files content w = (Return items, w') ->
  exists new,
    items = (content ++ new)%list /\
    Forall2 (fun f item => exists text ts,
               text_outcome rt f = Return text /\
               item = file_content_item f text ts) files new.
Proof.
  induction files as [|file rest IH]; intros content w items w' Hrun.
  - injection Hrun as <- _. exists []. split; [by rewrite app_nil_r | constructor].
  - cbn [append_file_items] in Hrun. unfold bind in Hrun.
    rewrite file_item_run in Hrun.
    destruct (text_outcome rt file) as [text|e] eqn:Htext; [|discriminate].
    apply IH in Hrun as (new & -> & Hnew).
    eexists (_ :: new). split; [by rewrite <- app_assoc |].
    constructor; eauto.
Qed.

(** The loop raises what the first failing entry raises. *)
Lemma append_file_items_raise done : forall file rest e content w,
  Forall (fun f => exists text, text_outcome rt f = Return text) done ->
  text_outcome rt file = Raise e ->
  exists w', append_file_items rt (done ++ file :: rest) content w = (Raise e, w').
Proof.
  induction done as [|f done IH]; intros file rest e content w Hdone Hfile.
  - cbn [app append_file_items]. unfold bind. rewrite file_item_run, Hfile. eauto.
  - inversion Hdone as [|? ? [text Htext] Hdone']; subst.
    cbn [app append_file_items]. unfold bind. rewrite file_item_run, Htext.
    by apply IH.
Qed.

End Loop.

(** ** The resolver *)

Section Resolver.
Context (rt : Runtime) (self : GitHubHandler).

Lemma extract_from_context query (d : gmap string pyval) v :
  d !! "repository" = Some v ->
  _extract_repo_info query (Some d) = v.
Proof.
  intros Hv. unfold _extract_repo_info.
  rewrite bool_decide_eq_true_2; [by rewrite Hv|].
  intros ->. by rewrite lookup_empty in Hv.
Qed.

(** Without a "repository" entry in the context and without a match of
    the pattern in the query, the extractor returns [None]. *)
Lemma extract_nothing query context :
  (forall d, context = Some d -> d !! "repository" = None) ->
  Re.search query = None ->
  _extract_repo_info query context = PyNone.
Proof.
  intros Hcontext Hsearch. unfold _extract_repo_info. rewrite Hsearch.
  destruct context as [d|]; [|done].
  rewrite (Hcontext d eq_refl). by destruct (bool_decide (d ≠ ∅)).
Qed.

Lemma create_error_response_run error_message w :
  _create_error_response rt error_message w =
  (Return [error_item error_message (utcnow_isoformat rt (clock_reads w))],
   tick w).
Proof. reflexivity. Qed.

(** A falsy identifier ends the resolution before any provider call. *)
Lemma process_query_no_identifier query context w :
  truthy (_extract_repo_info query context) = false ->
  process_query rt self query context w =
  (Return [error_item "No repository information found in query"
             (utcnow_isoformat rt (clock_reads w))],
   tick w).
Proof.
  intros Hfalsy. unfold process_query, try_except.
  rewrite Hfalsy. reflexivity.
Qed.

(** Whatever the body of the [try] raises becomes the one error item. *)
Lemma process_query_total query context w :
  exists items w', process_query rt self query context w = (Return items, w').
Proof.
  unfold process_query, try_except.
  match goal with |- context [match ?body with _ => _ end] =>
    destruct body as [[items|e] w'] end; eauto.
Qed.

Lemma take_five {A} (l : list A) : (length (take 5 l) <= 5)%nat.
Proof. rewrite length_take. lia. Qed.

Lemma file_items_kind files new :
  Forall2 (fun f item => exists text ts,
             text_outcome rt f = Return text /\
             item = file_content_item f text ts) files new ->
  forallb (fun item => item_type item =? "file_content") new = true /\
  length new = length files.
Proof.
  induction 1 as [|f item files new (text & ts & _ & ->) _ [IHkind IHlen]].
  - done.
  - cbn. by rewrite IHkind, IHlen.
Qed.

(** C1.  For every query, context and world, the resolver returns normally,
    and what it returns is either exactly one item of kind [error], or one
    [repository_info] item followed by at most five items that are all of
    kind [file_content]. *)
Theorem response_shape query context w :
  exists items w',
    process_query rt self query context w = (Return items, w') /\
    (error_response items = true \/ success_response items = true).
Proof.
  unfold process_query, try_except.
  destruct (truthy (_extract_repo_info query context)); cbn [negb].
  2: { rewrite create_error_response_run. eauto. }
  unfold bind at 1. unfold provider at 1.
  destruct (Github.get_repo _ _) as [repo|e].
  2: { rewrite create_error_response_run. eauto. }
  unfold bind at 1. unfold now at 1.
  unfold bind at 1. unfold provider at 1.
  destruct (Repository.get_contents repo "") as [search_results|e].
  2: { rewrite create_error_response_run. eauto. }
  unfold bind at 1. unfold lift at 1.
  destruct (_filter_relevant_files rt search_results query) as [relevant_files|e].
  2: { rewrite create_error_response_run. eauto. }
  match goal with |- context [append_file_items ?r ?l ?c ?w0] =>
    destruct (append_file_items r l c w0) as [[items|e] w'] eqn:Hloop end.
  2: { rewrite create_error_response_run. eauto. }
  apply append_file_items_return in Hloop as (new & -> & Hnew).
  apply file_items_kind in Hnew as [Hkind Hlen].
  do 2 eexists. split; [reflexivity|]. right.
  cbn. rewrite Hkind, Hlen. cbn.
  apply Nat.leb_le, take_five.
Qed.

(** C2.  If a provider operation invoked during a resolution raises (the
    metadata fetch, the listing fetch, or the fetch or decoding of the text
    of one of the selected entries), the resolver returns exactly one item,
    of kind [error], whose content is the text of that exception; nothing
    built before the failure is in the output. *)
Theorem provider_failure_error query context e w :
  provider_failure rt self query context e ->
  exists ts w',
    process_query rt self query context w =
    (Return [ {| item_type := "error";
                 item_content := ErrorMessage (exn_str e);
                 item_metadata := {| source := "github"; timestamp := ts |} |} ],
     w').
Proof.
  intros Hfail. unfold process_query, try_except.
  destruct Hfail as [Hid Hrepo | repo Hid Hrepo Hlist
                    | repo search_results relevant_files done file rest
                        Hid Hrepo Hlist Hrank Htake Hdone Hfile];
    rewrite Hid; cbn [negb];
    unfold bind at 1; unfold provider at 1; rewrite Hrepo.
  - rewrite create_error_response_run. eauto.
  - unfold bind at 1. unfold now at 1.
    unfold bind at 1. unfold provider at 1. rewrite Hlist.
    rewrite create_error_response_run. eauto.
  - unfold bind at 1. unfold now at 1.
    unfold bind at 1. unfold provider at 1. rewrite Hlist.
    unfold bind at 1. unfold lift at 1. rewrite Hrank, Htake.
    match goal with |- context [append_file_items ?r ?l ?c ?w0] =>
      destruct (append_file_items_raise r done file rest e c w0 Hdone Hfile)
        as [w' ->] end.
    rewrite create_error_response_run. eauto.
Qed.

(** C3.  When the extractor derives no identifier, the resolver returns
    exactly one [error] item with the message "No repository information
    found in query", and the record of provider calls is what it was. *)
Theorem no_identifier_error query context w :
  _extract_repo_info query context = PyNone ->
  fst (process_query rt self query context w) =
    Return [ {| item_type := "error";
                item_content :=
                  ErrorMessage "No repository information found in query";
                item_metadata :=
                  {| source := "github";
                     timestamp := utcnow_isoformat rt (clock_reads w) |} |} ] /\
  calls (snd (process_query rt self query context w)) = calls w.
Proof.
  intros Hnone. rewrite process_query_no_identifier; [done|].
  by rewrite Hnone.
Qed.

(** C9.  A context mapping that has the key "repository" decides the
    identifier: the extractor returns the mapped value as it is, whatever
    the query. *)
Theorem context_repository_verbatim query (d : gmap string pyval) v :
  d !! "repository" = Some v ->
  _extract_repo_info query (Some d) = v.
Proof. apply extract_from_context. Qed.

(** C10.  When the context maps "repository" to a falsy value (None, the
    empty string, ...) the resolver returns the one [error] item with the
    message "No repository information found in query" and makes no
    provider call. *)
Theorem falsy_context_repository_error query (d : gmap string pyval) v w :
  d !! "repository" = Some v ->
  truthy v = false ->
  fst (process_query rt self query (Some d) w) =
    Return [ {| item_type := "error";
                item_content :=
                  ErrorMessage "No repository information found in query";
                item_metadata :=
                  {| source := "github";
                     timestamp := utcnow_isoformat rt (clock_reads w) |} |} ] /\
  calls (snd (process_query rt self query (Some d) w)) = calls w.
Proof.
  intros Hv Hfalsy. rewrite process_query_no_identifier; [done|].
  by rewrite (extract_from_context query d v Hv).
Qed.

(** Reading the text of an entry returns in two cases only: the
    placeholder from 100,000 bytes on, the decoded bytes below. *)
Lemma text_outcome_return file text :
  text_outcome rt file = Return text <->
  ((100000 <= ContentFile.size file)%Z /\ text = "File too large") \/
  ((ContentFile.size file <= 99999)%Z /\
   exists bytes,
     ContentFile.decoded_content file = Return bytes /\
     decode_utf8 rt bytes = Return text).
Proof.
  unfold text_outcome.
  destruct (Z.ltb_spec (ContentFile.size file) 100000) as [Hsmall|Hlarge].
  - destruct (ContentFile.decoded_content file) as [bytes|e]; cbn [obind].
    + split.
      * intros Hdecode. right. split; [lia|]. eauto.
      * intros [[Hlarge _]|[_ (bytes' & [= <-] & Hdecode)]]; [lia | done].
    + split; [done|]. intros [[Hlarge _]|[_ (bytes' & Hfetch & _)]]; [lia | done].
  - split.
    + intros [= <-]. left. by split.
    + intros [[_ ->]|[Hsmall _]]; [done | lia].
Qed.



(** X9.  A success response is the [repository_info] item built from the
    fields of the repository, followed by one [file_content] item per
    selected entry, in ranking order, each with the name, the path and the
    address of its entry and with the text read for it. *)
Lemma success_response_items query context w items w' :
  process_query rt self query context w = (Return items, w') ->
  success_response items = true ->
  exists repo search_results relevant_files ts new,
    Github.get_repo (github self) (_extract_repo_info query context) = Return repo /\
    Repository.get_contents repo "" = Return search_results /\
    _filter_relevant_files rt search_results query = Return relevant_files /\
    items =
      {| item_type := "repository_info";
         item_content :=
           RepositoryInfo (Repository.name repo) (Repository.description repo)
             (Repository.stargazers_count repo) (Repository.forks_count repo)
             (Repository.language repo) (Repository.html_url repo);
         item_metadata := {| source := "github"; timestamp := ts |} |} :: new /\
    Forall2 (fun f item => exists text ts,
               (((100000 <= ContentFile.size f)%Z /\ text = "File too large") \/
                ((ContentFile.size f <= 99999)%Z /\
                 exists bytes,
                   ContentFile.decoded_content f = Return bytes /\
                   decode_utf8 rt bytes = Return text)) /\
               item =
                 {| item_type := "file_content";
                    item_content :=
                      FileContent (ContentFile.name f) (ContentFile.path f)
                        (ContentFile.html_url f) text;
                    item_metadata := {| source := "github"; timestamp := ts |} |})
      (take 5 relevant_files) new.
Proof.
  unfold process_query, try_except.
  destruct (truthy (_extract_repo_info query context)); cbn [negb].
  2: { rewrite create_error_response_run. by intros [= <- _]. }
  unfold bind at 1. unfold provider at 1.
  destruct (Github.get_repo _ _) as [repo|e] eqn:Hrepo.
  2: { rewrite create_error_response_run. by intros [= <- _]. }
  unfold bind at 1. unfold now at 1.
  unfold bind at 1. unfold provider at 1.
  destruct (Repository.get_contents repo "") as [search_results|e] eqn:Hlist.
  2: { rewrite create_error_response_run. by intros [= <- _]. }
  unfold bind at 1. unfold lift at 1.
  destruct (_filter_relevant_files rt search_results query) as [relevant_files|e]
    eqn:Hrank.
  2: { rewrite create_error_response_run. by intros [= <- _]. }
  match goal with |- context [append_file_items ?r ?l ?c ?w0] =>
    destruct (append_file_items r l c w0) as [[items'|e] w''] eqn:Hloop end.
  2: { rewrite create_error_response_run. by intros [= <- _]. }
  intros [= <- _] _.
  apply append_file_items_return in Hloop as (new & -> & Hnew).
  exists repo, search_results, relevant_files,
    (utcnow_isoformat rt (clock_reads w)), new.
  split_and!; [done..|].
  eapply Forall2_impl; [exact Hnew|].
  intros f item (text & ts & Htext%text_outcome_return & ->). by exists text, ts.
Qed.


End Resolver.

(** ** The claims on the sample data *)

(** The metadata fetch raises "404 Not Found": the response is the one
    error item with that text. *)
Lemma provider_failure_error_witness :
  let self := failing_client (Exception "404 Not Found") in
  provider_failure pygithub self "octocat/Hello-World" None
    (Exception "404 Not Found") /\
  exists ts w',
    process_query pygithub self "octocat/Hello-World" None initial_world =
    (Return [ {| item_type := "error";
                 item_content := ErrorMessage "404 Not Found";
                 item_metadata := {| source := "github"; timestamp := ts |} |} ],
     w').
Proof.
  intros self.
  assert (provider_failure pygithub self "octocat/Hello-World" None
            (Exception "404 Not Found")) as Hfail.
  { apply metadata_fetch_fails; reflexivity. }
  split; [exact Hfail|].
  exact (provider_failure_error pygithub self "octocat/Hello-World" None
           (Exception "404 Not Found") initial_world Hfail).
Defined.

Lemma no_identifier_error_witness :
  let self := client (Return [readme_md]) in
  _extract_repo_info "list the files" None = PyNone /\
  fst (process_query pygithub self "list the files" None initial_world) =
    Return [ {| item_type := "error";
                item_content :=
                  ErrorMessage "No repository information found in query";
                item_metadata :=
                  {| source := "github";
                     timestamp := "2024-01-01T00:00:00+00:00" |} |} ] /\
  calls (snd (process_query pygithub self "list the files" None initial_world)) = [].
Proof.
  intros self. split; [reflexivity|].
  apply (no_identifier_error pygithub self "list the files" None initial_world).
  reflexivity.
Defined.

(** The example of the specification, read as it is written: "README.md"
    at 1.5, the two others at 0, and "README.md" alone in the ranking. *)
Lemma example_ranking_as_stated_fails :
  let query := "Show me README in octocat/Hello-World" in
  let query_terms := Str.split (Str.lower query) in
  ~ (_extract_repo_info query None = PyStr "octocat/Hello-World" /\
     file_score query_terms readme_md == 3 # 2 /\
     file_score query_terms license_txt == 0 /\
     file_score query_terms src_dir == 0 /\
     _filter_relevant_files pygithub [readme_md; src_dir; license_txt] query =
       Return [readme_md]).
Proof.
  intros query query_terms (_ & Hreadme & _).
  vm_compute in Hreadme. discriminate Hreadme.
Qed.

(** A query without terms does not empty a listing that holds "README.md". *)
Lemma no_terms_keeps_bonus_entry :
  Str.split (Str.lower "") = [] /\
  _filter_relevant_files pygithub [readme_md] "" <> Return [].
Proof. split; [reflexivity | discriminate]. Qed.

Lemma no_terms_ranking_witness :
  Str.split (Str.lower "   ") = [] /\
  file_score (Str.split (Str.lower "   ")) readme_md == 1 # 2 /\
  file_score (Str.split (Str.lower "   ")) src_dir == 0 /\
  _filter_relevant_files pygithub [src_dir; readme_md] "   " = Return [readme_md].
Proof.
  assert (Str.split (Str.lower "   ") = []) as Hterms
    by (apply StrFacts.split_blank; reflexivity).
  destruct (no_terms_ranking pygithub [src_dir; readme_md] "   " Hterms)
    as (Hscore & _ & _ & Hone).
  split; [exact Hterms|].
  split; [exact (Hscore readme_md)|].
  split; [exact (Hscore src_dir)|].
  apply Hone. reflexivity.
Defined.

(** "README.MD" does not end with any of the suffixes as they are written,
    and yet it is given the half point. *)
Lemma uppercase_suffix_gets_bonus :
  ~ (file_score [] readme_upper ==
       term_matches [] (Str.lower (ContentFile.name readme_upper)) + (1 # 2) <->
     Str.endswith_any (ContentFile.name readme_upper) bonus_extensions = true).
Proof.
  intros [Hgranted _].
  assert (Str.endswith_any (ContentFile.name readme_upper) bonus_extensions = true)
    as Hends by (apply Hgranted; reflexivity).
  discriminate Hends.
Qed.

Lemma extension_bonus_witness :
  (exists stem suffix,
     In suffix bonus_extensions /\
     Str.lower (ContentFile.name readme_upper) = stem ++ suffix) /\
  file_score ["readme"] readme_upper =
    (term_matches ["readme"] (Str.lower (ContentFile.name readme_upper)) + (1 # 2))%Q /\
  ~ (exists stem suffix,
       In suffix bonus_extensions /\
       Str.lower (ContentFile.name src_dir) = stem ++ suffix) /\
  file_score ["readme"] src_dir =
    term_matches ["readme"] (Str.lower (ContentFile.name src_dir)).
Proof.
  assert (exists stem suffix,
            In suffix bonus_extensions /\
            Str.lower (ContentFile.name readme_upper) = stem ++ suffix) as Hends.
  { exists "readme", ".md". split; [left; reflexivity | reflexivity]. }
  assert (~ (exists stem suffix,
               In suffix bonus_extensions /\
               Str.lower (ContentFile.name src_dir) = stem ++ suffix)) as Hnot.
  { intros Hsome%StrFacts.endswith_any_spec. discriminate Hsome. }
  split; [exact Hends|].
  split; [exact (proj1 (extension_bonus ["readme"] readme_upper) Hends)|].
  split; [exact Hnot|].
  exact (proj2 (extension_bonus ["readme"] src_dir) Hnot).
Defined.


(** C8.  Two entries of a listing with the same score, "README.md" and
    "CONTRIBUTING.md" at 0.5 each for the query "octocat/Hello-World":
    the sort compares the entries themselves and raises, the ranker
    returns no list, and the resolver answers with the error item. *)
Theorem equal_scores_raise :
  let query := "octocat/Hello-World" in
  let query_terms := Str.split (Str.lower query) in
  file_score query_terms readme_md == file_score query_terms contributing_md /\
  _filter_relevant_files pygithub [readme_md; contributing_md] query =
    Raise unorderable /\
  fst (process_query pygithub (client (Return [readme_md; contributing_md]))
         query None initial_world) =
    Return [error_item
              "'<' not supported between instances of 'ContentFile' and 'ContentFile'"
              "2024-01-01T00:00:00+00:00"].
Proof.
  intros query query_terms. split; [reflexivity|]. split.
  - rewrite tied_pair_compared; reflexivity.
  - reflexivity.
Qed.

Lemma context_repository_verbatim_witness :
  let d : gmap string pyval := {[ "repository" := PyStr "not a repository" ]} in
  d !! "repository" = Some (PyStr "not a repository") /\
  _extract_repo_info "Show me README in octocat/Hello-World" (Some d) =
    PyStr "not a repository".
Proof.
  intros d.
  assert (d !! "repository" = Some (PyStr "not a repository")) as Hd
    by reflexivity.
  split; [exact Hd|].
  exact (context_repository_verbatim
           "Show me README in octocat/Hello-World" d _ Hd).
Defined.

Lemma falsy_context_repository_error_witness :
  let d : gmap string pyval := {[ "repository" := PyStr "" ]} in
  let self := client (Return [readme_md]) in
  d !! "repository" = Some (PyStr "") /\
  truthy (PyStr "") = false /\
  fst (process_query pygithub self "octocat/Hello-World" (Some d) initial_world) =
    Return [ {| item_type := "error";
                item_content :=
                  ErrorMessage "No repository information found in query";
                item_metadata :=
                  {| source := "github";
                     timestamp := "2024-01-01T00:00:00+00:00" |} |} ] /\
  calls (snd (process_query pygithub self "octocat/Hello-World" (Some d)
                initial_world)) = [].
Proof.
  intros d self.
  assert (d !! "repository" = Some (PyStr "")) as Hd by reflexivity.
  split; [exact Hd|]. split; [reflexivity|].
  exact (falsy_context_repository_error pygithub self "octocat/Hello-World"
           d (PyStr "") initial_world Hd eq_refl).
Defined.

(** * Further properties *)

Module ReFacts.
Import Re Pattern.

Lemma append_assoc s1 s2 s3 : (s1 ++ s2) ++ s3 = s1 ++ (s2 ++ s3).
Proof.
  induction s1 as [|c s1 IH]; [done|].
  change (String c ((s1 ++ s2) ++ s3) = String c (s1 ++ s2 ++ s3)). by rewrite IH.
Qed.

Lemma append_nil s : "" ++ s = s.
Proof. reflexivity. Qed.

Lemma append_cons c s1 s2 : String c s1 ++ s2 = String c (s1 ++ s2).
Proof. reflexivity. Qed.

Lemma all_chars_append p s1 s2 :
  all_chars p (s1 ++ s2) = all_chars p s1 && all_chars p s2.
Proof.
  induction s1 as [|c s1 IH]; [done|].
  rewrite append_cons. cbn [all_chars]. by rewrite IH, andb_assoc.
Qed.

(** [span] cuts [s] after its longest prefix in the class. *)
Lemma span_spec p s :
  s = (span p s).1 ++ (span p s).2 /\
  all_chars p (span p s).1 = true /\
  match (span p s).2 with
  | EmptyString => True
  | String c _ => p c = false
  end.
Proof.
  induction s as [|c s (IHcut & IHall & IHnext)]; [done|].
  cbn [span]. destruct (p c) eqn:Hc.
  - destruct (span p s) as [run rest]. cbn [fst snd] in *.
    rewrite append_cons, <- IHcut. cbn [all_chars]. by rewrite Hc, IHall.
  - cbn [fst snd all_chars]. by rewrite Hc.
Qed.

(** The span of a run of the class followed by a character outside it. *)
Lemma span_run p run c rest :
  all_chars p run = true -> p c = false ->
  span p (run ++ String c rest) = (run, String c rest).
Proof.
  intros Hrun Hc. induction run as [|d run IH].
  - rewrite append_nil. cbn [span]. by rewrite Hc.
  - cbn [all_chars] in Hrun. apply andb_true_iff in Hrun as [Hd Hrun].
    rewrite append_cons. cbn [span]. by rewrite Hd, (IH Hrun).
Qed.

(** The span of a string that begins with a run of the class begins with
    that run. *)
Lemma span_prefix p run rest :
  all_chars p run = true ->
  exists more, (span p (run ++ rest)).1 = run ++ more.
Proof.
  intros Hrun. induction run as [|d run IH].
  - exists (span p rest).1. by rewrite !append_nil.
  - cbn [all_chars] in Hrun. apply andb_true_iff in Hrun as [Hd Hrun].
    destruct (IH Hrun) as [more Hmore].
    exists more. rewrite append_cons. cbn [span]. rewrite Hd.
    destruct (span p (run ++ rest)) as [run' rest']. cbn [fst] in *.
    by rewrite Hmore.
Qed.

Lemma match_here_sound s m :
  match_here s = Some m ->
  exists owner name rest,
    s = owner ++ "/" ++ name ++ rest /\
    m = owner ++ "/" ++ name /\
    owner <> "" /\ all_chars owner_char owner = true /\
    name <> "" /\ all_chars name_char name = true /\
    match rest with
    | EmptyString => True
    | String c _ => name_char c = false
    end.
Proof.
  unfold match_here.
  pose proof (span_spec owner_char s) as (Hcut & Howner & _).
  destruct (span owner_char s) as [owner after]. cbn [fst snd] in *.
  destruct owner as [|o owner]; [done|].
  destruct after as [|slash after]; [done|].
  destruct (Ascii.eqb_spec slash "/") as [->|Hne].
  2: { destruct slash as [[] [] [] [] [] [] [] []]; done. }
  pose proof (span_spec name_char after) as (Hcut' & Hname & Hnext).
  destruct (span name_char after) as [name rest]. cbn [fst snd] in *.
  destruct name as [|n name]; [by destruct after|].
  intros [= <-].
  exists (String o owner), (String n name), rest.
  split_and!; try done.
  rewrite Hcut, Hcut'. reflexivity.
Qed.

Lemma match_here_complete s :
  starts s -> exists m, match_here s = Some m.
Proof.
  intros (owner & name & rest & -> & Howner_ne & Howner & Hname_ne & Hname).
  unfold match_here.
  change (owner ++ "/" ++ name ++ rest)
    with (owner ++ String "/" (name ++ rest)).
  rewrite (span_run owner_char owner "/" (name ++ rest) Howner eq_refl).
  destruct owner as [|o owner]; [done|].
  destruct (span_prefix name_char name rest Hname) as [more Hmore].
  destruct (span name_char (name ++ rest)) as [name' rest']. cbn [fst] in Hmore.
  subst name'. destruct name as [|n name]; [done|].
  rewrite append_cons. eauto.
Qed.

Lemma match_here_starts s : (exists m, match_here s = Some m) <-> starts s.
Proof.
  split; [|apply match_here_complete].
  intros [m (owner & name & rest & Hs & _ & Hrest)%match_here_sound].
  exists owner, name, rest. tauto.
Qed.

(** What [search] returns is the match at the leftmost position of the
    query at which the pattern matches. *)
Lemma search_sound q : forall m,
  search q = Some m ->
  exists before after,
    q = before ++ after /\
    match_here after = Some m /\
    forall before' after',
      q = before' ++ after' ->
      (String.length before' < String.length before)%nat ->
      ~ starts after'.
Proof.
  induction q as [|c q IH]; intros m Hsearch.
  - cbn [search] in Hsearch. destruct (match_here "") eqn:Hhere; [|done].
    injection Hsearch as ->. exists "", "". split_and!; [done..|].
    intros before' after' _ Hlen. cbn in Hlen. lia.
  - cbn [search] in Hsearch.
    destruct (match_here (String c q)) as [m'|] eqn:Hhere.
    + injection Hsearch as ->. exists "", (String c q). split_and!; [done..|].
      intros before' after' _ Hlen. cbn in Hlen. lia.
    + destruct (IH m Hsearch) as (before & after & -> & Hafter & Hleft).
      exists (String c before), after. split_and!; [done..|].
      intros before' after' Hcut Hlen.
      destruct before' as [|c' before'].
      * rewrite append_nil in Hcut. subst after'.
        intros Hstarts%match_here_starts. destruct Hstarts as [m' Hm'].
        congruence.
      * rewrite !append_cons in Hcut. injection Hcut as -> Hcut.
        apply (Hleft before' after' Hcut). cbn in Hlen. lia.
Qed.

Lemma search_complete q :
  (exists before after, q = before ++ after /\ starts after) ->
  exists m, search q = Some m.
Proof.
  intros (before & after & -> & Hstarts).
  induction before as [|c before IH].
  - rewrite append_nil. apply match_here_starts in Hstarts as [m Hm].
    exists m. destruct after; cbn [search]; by rewrite Hm.
  - rewrite append_cons. cbn [search].
    destruct (match_here (String c (before ++ after))); eauto.
Qed.

End ReFacts.

Module ScoreFacts.

(** [sub in s] holds exactly when [s] is [sub] between two strings. *)
Lemma contains_spec sub s :
  Str.contains sub s = true <-> exists before after, s = before ++ sub ++ after.
Proof.
  induction s as [|c s IH].
  - cbn [Str.contains]. rewrite orb_false_r, String.prefix_correct. split.
    + destruct sub; [|done]. intros _. by exists "", "".
    + intros (before & after & Hs). destruct before; [|done].
      destruct sub; [done|done].
  - cbn [Str.contains]. rewrite orb_true_iff, IH, String.prefix_correct. split.
    + intros [Hprefix | (before & after & ->)].
      * exists "", (substring (String.length sub)
                      (String.length (String c s) - String.length sub) (String c s)).
        rewrite <- Hprefix at 1.
        change ("" ++ ?x) with x.
        apply StrFacts.substring_cut.
        destruct (le_lt_dec (String.length sub) (String.length (String c s)))
          as [|Hlong]; [done|].
        exfalso. apply (f_equal String.length) in Hprefix.
        assert (forall n t, String.length (substring 0 n t) <= String.length t)%nat
          as Hshort.
        { intros n t. revert n. induction t as [|d t IHt]; intros [|n]; cbn; try lia.
          specialize (IHt n). lia. }
        specialize (Hshort (String.length sub) (String c s)). lia.
      * by exists (String c before), after.
    + intros ([|c' before] & after & Hs).
      * left. change ("" ++ ?x) with x in Hs. rewrite Hs.
        rewrite <- (StrFacts.substring_skip "" (sub ++ after)).
        change (substring 0 (String.length sub) (sub ++ after) = sub).
        clear. induction sub as [|d sub IHsub]; cbn.
        -- by destruct after.
        -- change (String d sub ++ after) with (String d (sub ++ after)).
           cbn. by rewrite IHsub.
      * right. change (String c' before ++ ?x) with (String c' (before ++ x)) in Hs.
        injection Hs as _ ->. eauto.
Qed.

Lemma inject_succ n : inject_Z (Z.of_nat (S n)) == inject_Z (Z.of_nat n) + 1.
Proof. rewrite Nat2Z.inj_succ. unfold Z.succ. by rewrite inject_Z_plus. Qed.

(** The inner loop counts the terms found in the name, each as often as
    the query repeats it. *)
Lemma term_matches_count query_terms filename :
  term_matches query_terms filename ==
  inject_Z (Z.of_nat (length (List.filter (fun term => Str.contains term filename)
                                query_terms))).
Proof.
  unfold term_matches.
  assert (forall score : Q,
    fold_left (fun score term =>
                 if Str.contains term filename then (score + 1)%Q else score)
      query_terms score ==
    score + inject_Z (Z.of_nat (length (List.filter
                (fun term => Str.contains term filename) query_terms)))) as Hloop.
  { induction query_terms as [|term rest IH]; intros score.
    - cbn. ring.
    - cbn [fold_left List.filter]. rewrite IH.
      destruct (Str.contains term filename); [|done].
      cbn [length]. rewrite inject_succ. ring. }
  rewrite Hloop. ring.
Qed.

End ScoreFacts.

Section Scores.
Context (query_terms : list string) (file : ContentFile.t).

Lemma file_score_formula :
  file_score query_terms file ==
  inject_Z (Z.of_nat (length (List.filter
      (fun term => Str.contains term (Str.lower (ContentFile.name file)))
      query_terms))) +
  (if has_bonus file then 1 # 2 else 0).
Proof.
  unfold file_score, has_bonus.
  destruct (Str.endswith_any _ _); rewrite ScoreFacts.term_matches_count; ring.
Qed.

Lemma score_positive_iff (score : Q) : score_positive score = true <-> (0 < score)%Q.
Proof.
  unfold score_positive. rewrite negb_true_iff, <- not_true_iff_false, Qle_bool_iff.
  split; [apply Qnot_le_lt | apply Qlt_not_le].
Qed.

Lemma file_score_nonneg : (0 <= file_score query_terms file)%Q.
Proof.
  rewrite file_score_formula.
  apply Qle_trans with (0 + 0)%Q; [done|]. apply Qplus_le_compat.
  - change 0%Q with (inject_Z 0). rewrite <- Zle_Qle. lia.
  - by destruct (has_bonus file).
Qed.

(** X3.  The score of an entry is the number of query terms found in its
    lower-cased name, a term counting as often as the query repeats it,
    plus one half when the name has a bonus extension. *)
Theorem score_counts_terms :
  file_score query_terms file ==
  inject_Z (Z.of_nat (length (List.filter
      (fun term => Str.contains term (Str.lower (ContentFile.name file)))
      query_terms))) +
  (if has_bonus file then 1 # 2 else 0).
Proof. apply file_score_formula. Qed.

(** X4.  An entry passes the score filter exactly when some query term
    occurs in its lower-cased name or that name ends with a bonus
    extension. *)
Theorem kept_iff_match_or_bonus :
  let filename := Str.lower (ContentFile.name file) in
  score_positive (file_score query_terms file) = true <->
  (exists term before after,
     In term query_terms /\ filename = before ++ term ++ after) \/
  (exists stem suffix,
     In suffix bonus_extensions /\ filename = stem ++ suffix).
Proof.
  intros filename. rewrite score_positive_iff, file_score_formula.
  fold filename. unfold has_bonus. fold filename.
  rewrite <- StrFacts.endswith_any_spec.
  set (found := List.filter (fun term => Str.contains term filename) query_terms).
  assert ((exists term before after,
             In term query_terms /\ filename = before ++ term ++ after) <->
          found <> []) as ->.
  { split.
    - intros (term & before & after & Hin & Hname) Hnone.
      assert (In term found) as Hfound.
      { apply filter_In. split; [done|]. apply ScoreFacts.contains_spec. eauto. }
      rewrite Hnone in Hfound. destruct Hfound.
    - destruct found as [|term rest] eqn:Hfound; [done|]. intros _.
      assert (In term found) as Hin by (rewrite Hfound; left; done).
      apply filter_In in Hin as [Hin (before & after & Hname)%ScoreFacts.contains_spec].
      eauto 6. }
  destruct found as [|term rest]; destruct (Str.endswith_any filename bonus_extensions).
  - split; [by right | done].
  - split; [intros Hlt; by apply Qlt_irrefl in Hlt | intros [|]; done].
  - split; [by right | intros _].
    apply Qlt_le_trans with (0 + (1 # 2))%Q; [done|].
    apply Qplus_le_compat; [|apply Qle_refl].
    change 0%Q with (inject_Z 0). rewrite <- Zle_Qle. lia.
  - split; [by left | intros _].
    rewrite Qplus_0_r. change 0%Q with (inject_Z 0). rewrite <- Zlt_Qlt.
    cbn [length]. lia.
Qed.

End Scores.

(** ** Lists *)

Section Pairwise.
Context {A : Type} (R : A -> A -> Prop) (R_sym : forall x y, R x y -> R y x).

Lemma pairwise_perm l l' : Permutation l l' -> pairwise R l -> pairwise R l'.
Proof using R_sym.
  induction 1 as [|x l l' Hperm IH|x y l|l l' l'' _ IH _ IH']; [done|..].
  - intros [Hx Hrest]. split; [by rewrite <- Hperm | by apply IH].
  - intros [Hy [Hx Hrest]]. inversion Hy as [|? ? Hyx Hy']; subst.
    split_and!; [|done..]. constructor; [by apply R_sym | done].
  - intros Hl. by apply IH', IH.
Qed.

Lemma pairwise_filter (p : A -> bool) l : pairwise R l -> pairwise R (List.filter p l).
Proof.
  induction l as [|x l IH]; [done|]. intros [Hx Hrest]. cbn [List.filter].
  destruct (p x); [|by apply IH]. split; [|by apply IH].
  apply List.Forall_forall. intros y [Hy _]%filter_In.
  by apply (proj1 (List.Forall_forall _ _) Hx).
Qed.

End Pairwise.

Lemma pairwise_map {A B} (f : A -> B) (R : B -> B -> Prop) l :
  pairwise R (map f l) <-> pairwise (fun x y => R (f x) (f y)) l.
Proof.
  induction l as [|x l IH]; [done|]. cbn [map pairwise].
  by rewrite IH, Forall_map.
Qed.

Lemma tied_perm l l' : Permutation l l' -> tied l -> tied l'.
Proof.
  induction 1 as [|x l l' Hperm IH|x y l|l l' l'' _ IH _ IH']; [done|..].
  - intros [Hx|Hrest]; [left; by rewrite <- Hperm | right; by apply IH].
  - cbn [tied]. rewrite !Exists_cons. intros [[Hyx|Hy]|[Hx|Hrest]].
    + left. left. by symmetry.
    + right. by left.
    + left. by right.
    + right. by right.
  - intros Hl. by apply IH', IH.
Qed.

(** ** The sort *)

Section Sort.
Context {A : Type} (lt : A -> A -> outcome bool).

Lemma insort_perm x l : forall l',
  insort lt x l = Return l' -> Permutation l' (x :: l).
Proof.
  induction l as [|y l IH]; intros l' Hins; cbn [insort] in Hins.
  - by injection Hins as <-.
  - destruct (lt x y) as [[]|]; cbn [obind] in Hins; [by injection Hins as <- | | done].
    destruct (insort lt x l) as [r|]; [|done]. cbn [obind] in Hins.
    injection Hins as <-. rewrite (IH r eq_refl). apply perm_swap.
Qed.

Lemma sort_loop_raise l e :
  fold_left (fun acc x => sorted <~ acc ;; insort lt x sorted) l (Raise e) = Raise e.
Proof. induction l as [|x l IH]; [done | apply IH]. Qed.

Lemma sort_loop_perm l : forall acc l',
  fold_left (fun acc x => sorted <~ acc ;; insort lt x sorted) l (Return acc)
    = Return l' ->
  Permutation l' (l ++ acc).
Proof.
  induction l as [|x l IH]; intros acc l' Hloop; cbn [fold_left obind] in Hloop.
  - by injection Hloop as <-.
  - destruct (insort lt x acc) as [acc'|e] eqn:Hins.
    + rewrite (IH acc' l' Hloop), (insort_perm x acc acc' Hins).
      cbn [app]. by rewrite Permutation_middle.
    + by rewrite sort_loop_raise in Hloop.
Qed.

Lemma sorted_reverse_perm l l' :
  sorted_reverse lt l = Return l' -> Permutation l' l.
Proof.
  unfold sorted_reverse, list_sort.
  destruct (fold_left _ (rev l) (Return [])) as [r|] eqn:Hloop; [|done].
  cbn [obind]. intros [= <-].
  apply sort_loop_perm in Hloop. rewrite app_nil_r in Hloop.
  by rewrite <- Permutation_rev, Hloop, <- Permutation_rev.
Qed.

(** The sort orders by any key that [lt] respects. *)
Context (key : A -> Q).
Context (lt_true : forall x y, lt x y = Return true -> (key x <= key y)%Q).
Context (lt_false : forall x y, lt x y = Return false -> (key y <= key x)%Q).

Lemma ascending_perm_head (k : Q) (l l' : list Q) :
  Permutation l' l -> Forall (fun later => (k <= later)%Q) l ->
  Forall (fun later => (k <= later)%Q) l'.
Proof. intros Hperm Hall. by rewrite Hperm. Qed.

Lemma insort_ascending x l : forall l',
  ascending (map key l) ->
  insort lt x l = Return l' ->
  ascending (map key l').
Proof using lt_true lt_false.
  induction l as [|y l IH]; intros l' Hasc Hins; cbn [insort] in Hins.
  - by injection Hins as <-.
  - destruct Hasc as [Hy Hasc].
    destruct (lt x y) as [[]|] eqn:Hxy; cbn [obind] in Hins; [| |done].
    + injection Hins as <-. cbn [map ascending]. split_and!; [|done..].
      constructor; [by apply lt_true|].
      eapply Forall_impl; [exact Hy|]. intros k Hk. cbn in Hk.
      eapply Qle_trans; [by apply lt_true | exact Hk].
    + destruct (insort lt x l) as [r|] eqn:Hr; [|done]. cbn [obind] in Hins.
      injection Hins as <-. cbn [map ascending]. split; [|by apply IH].
      apply (ascending_perm_head _ (map key (x :: l))).
      * apply Permutation_map. by apply insort_perm.
      * constructor; [by apply lt_false | done].
Qed.

Lemma sort_loop_ascending l : forall acc l',
  ascending (map key acc) ->
  fold_left (fun acc x => sorted <~ acc ;; insort lt x sorted) l (Return acc)
    = Return l' ->
  ascending (map key l').
Proof using lt_true lt_false.
  induction l as [|x l IH]; intros acc l' Hasc Hloop; cbn [fold_left obind] in Hloop.
  - by injection Hloop as <-.
  - destruct (insort lt x acc) as [acc'|e] eqn:Hins.
    + apply (IH acc' l'); [|done]. by apply (insort_ascending x acc).
    + by rewrite sort_loop_raise in Hloop.
Qed.

Lemma descending_snoc (k : Q) (l : list Q) :
  descending l -> Forall (fun earlier => (k <= earlier)%Q) l ->
  descending (l ++ [k]).
Proof.
  induction l as [|a l IH]; [done|]. intros [Ha Hdesc] Hk.
  inversion Hk as [|? ? Hka Hk']; subst. cbn [app descending]. split.
  - apply Forall_app. split; [done|]. by constructor.
  - by apply IH.
Qed.

Lemma ascending_rev (l : list Q) : ascending l -> descending (rev l).
Proof.
  induction l as [|k l IH]; [done|]. intros [Hk Hasc]. cbn [rev].
  apply descending_snoc; [by apply IH|]. by apply Forall_rev.
Qed.

Lemma sorted_reverse_descending l l' :
  sorted_reverse lt l = Return l' -> descending (map key l').
Proof using lt_true lt_false.
  unfold sorted_reverse, list_sort.
  destruct (fold_left _ (rev l) (Return [])) as [r|] eqn:Hloop; [|done].
  cbn [obind]. intros [= <-]. rewrite map_rev. apply ascending_rev.
  by apply (sort_loop_ascending (rev l) [] r).
Qed.


(** The sort returns when the keys of its elements differ, provided [lt]
    returns on elements whose keys differ. *)
Context (lt_returns : forall x y, ~ key x == key y -> exists b, lt x y = Return b).

Lemma insort_returns x l :
  Forall (fun y => ~ key x == key y) l -> exists l', insort lt x l = Return l'.
Proof using lt_returns.
  induction l as [|y l IH]; intros Hdiff; cbn [insort]; [eauto|].
  inversion Hdiff as [|? ? Hxy Hdiff']; subst.
  destruct (lt_returns x y Hxy) as [[] ->]; cbn [obind]; [eauto|].
  destruct (IH Hdiff') as [r ->]. cbn [obind]. eauto.
Qed.

Lemma sort_loop_returns l : forall acc,
  distinct_scores (map key (l ++ acc)) ->
  exists l',
    fold_left (fun acc x => sorted <~ acc ;; insort lt x sorted) l (Return acc)
      = Return l'.
Proof using lt_returns.
  induction l as [|x l IH]; intros acc Hdistinct; cbn [fold_left obind]; [eauto|].
  destruct Hdistinct as [Hx Hrest].
  destruct (insort_returns x acc) as [acc' Hins].
  { rewrite map_app, Forall_app, !Forall_map in Hx. apply Hx. }
  rewrite Hins. apply IH.
  apply (pairwise_perm _ (fun a b Hab Hba => Hab (Qeq_sym _ _ Hba))
           (map key (x :: l ++ acc))); [|by split].
  apply Permutation_map. rewrite (insort_perm x acc acc' Hins).
  apply Permutation_middle.
Qed.

Lemma sorted_reverse_returns l :
  distinct_scores (map key l) -> exists l', sorted_reverse lt l = Return l'.
Proof using lt_returns.
  intros Hdistinct. unfold sorted_reverse, list_sort.
  destruct (sort_loop_returns (rev l) []) as [r ->]; [|cbn [obind]; eauto].
  rewrite app_nil_r.
  apply (pairwise_perm _ (fun a b Hab Hba => Hab (Qeq_sym _ _ Hba)) (map key l));
    [|done].
  apply Permutation_map, Permutation_rev.
Qed.

(** The sort raises when two of its elements have the same key, provided
    [lt] raises on such elements. *)
Context (apart : A -> A -> Prop) (apart_sym : forall x y, apart x y -> apart y x).
Context (e0 : exn).
Context (lt_raises : forall x y, key x == key y -> apart x y -> lt x y = Raise e0).

Lemma insort_tie x l :
  ascending (map key l) ->
  Forall (apart x) l ->
  Exists (fun y => key x == key y) l ->
  insort lt x l = Raise e0.
Proof using lt_true lt_returns lt_raises.
  induction l as [|y l IH]; intros Hasc Hapart Htie; [by inversion Htie|].
  destruct Hasc as [Hy Hasc].
  inversion Hapart as [|? ? Hxy Hapart']; subst. cbn [insort].
  destruct (Qeq_dec (key x) (key y)) as [Heq|Hne].
  { by rewrite (lt_raises x y Heq Hxy). }
  inversion Htie as [? ? Hhead|? ? Htail]; subst; [done|].
  destruct (lt_returns x y Hne) as [b Hb]. rewrite Hb. cbn [obind].
  destruct b.
  - exfalso. apply Hne. apply Qle_antisym; [by apply lt_true|].
    apply List.Exists_exists in Htail as (z & Hz & Hxz). rewrite Hxz.
    apply (proj1 (List.Forall_forall _ _) Hy (key z)). by apply in_map.
  - by rewrite (IH Hasc Hapart' Htail).
Qed.

Lemma sort_loop_tie l : forall acc,
  ascending (map key acc) ->
  ~ tied (map key acc) ->
  pairwise apart (l ++ acc) ->
  tied (map key (l ++ acc)) ->
  fold_left (fun acc x => sorted <~ acc ;; insort lt x sorted) l (Return acc)
    = Raise e0.
Proof using lt_true lt_false lt_returns lt_raises apart_sym.
  induction l as [|x l IH]; intros acc Hasc Hnotie Hapart Htied; [done|].
  cbn [fold_left obind]. destruct Hapart as [Hx Hapart].
  destruct (List.Exists_dec (fun y => key x == key y) acc
              (fun y => Qeq_dec (key x) (key y))) as [Htie|Hfree].
  - rewrite (insort_tie x acc Hasc); [apply sort_loop_raise| |done].
    apply Forall_app in Hx. apply Hx.
  - destruct (insort_returns x acc) as [acc' Hins].
    { apply List.Forall_forall. intros y Hy Hxy. apply Hfree.
      apply List.Exists_exists. eauto. }
    rewrite Hins.
    assert (Permutation (l ++ acc') (x :: l ++ acc)) as Hperm.
    { rewrite (insort_perm x acc acc' Hins). symmetry. apply Permutation_middle. }
    apply IH.
    + by apply (insort_ascending x acc).
    + intros Htied'. apply (tied_perm _ (map key (x :: acc))) in Htied'.
      * destruct Htied' as [Htie|Hacc]; [|done]. apply Hfree.
        apply List.Exists_exists in Htie as (k & (y & <- & Hy)%in_map_iff & Hk).
        apply List.Exists_exists. eauto.
      * apply Permutation_map. by apply insort_perm.
    + apply (pairwise_perm apart apart_sym (x :: l ++ acc)); [by symmetry|].
      by split.
    + apply (tied_perm (map key (x :: l ++ acc))); [|done].
      apply Permutation_map. by symmetry.
Qed.

Lemma sorted_reverse_tie l :
  pairwise apart l -> tied (map key l) -> sorted_reverse lt l = Raise e0.
Proof using lt_true lt_false lt_returns lt_raises apart_sym.
  intros Hapart Htied. unfold sorted_reverse, list_sort.
  rewrite (sort_loop_tie (rev l) []); [done|done|by intros []|..].
  - rewrite app_nil_r.
    apply (pairwise_perm apart apart_sym l); [apply Permutation_rev | done].
  - rewrite app_nil_r. apply (tied_perm (map key l)); [|done].
    apply Permutation_map, Permutation_rev.
Qed.

End Sort.

(** ** The ranking *)

Section Ranking.
Context (rt : Runtime).

Lemma tuple_lt_true a b : tuple_lt rt a b = Return true -> (a.1 <= b.1)%Q.
Proof.
  unfold tuple_lt. destruct (Qeq_bool a.1 b.1) eqn:Heq; cbn [negb].
  - intros _. apply Qeq_bool_eq in Heq. rewrite Heq. apply Qle_refl.
  - intros [= Hlt]. apply negb_true_iff in Hlt.
    apply Qlt_le_weak, Qnot_le_lt. intros Hle%Qle_bool_iff. congruence.
Qed.

Lemma tuple_lt_false a b : tuple_lt rt a b = Return false -> (b.1 <= a.1)%Q.
Proof.
  unfold tuple_lt. destruct (Qeq_bool a.1 b.1) eqn:Heq; cbn [negb].
  - intros _. apply Qeq_bool_eq in Heq. rewrite Heq. apply Qle_refl.
  - intros [= Hlt]. apply negb_false_iff in Hlt. by apply Qle_bool_iff.
Qed.

Lemma tuple_lt_returns a b :
  ~ a.1 == b.1 -> exists r, tuple_lt rt a b = Return r.
Proof.
  intros Hne. unfold tuple_lt. destruct (Qeq_bool a.1 b.1) eqn:Heq; [|cbn; eauto].
  by apply Qeq_bool_eq in Heq.
Qed.

Lemma scored_files_kept query_terms files :
  scored_files query_terms files =
  map (fun file => (file_score query_terms file, file)) (kept query_terms files).
Proof.
  unfold kept. induction files as [|file rest IH]; [done|].
  cbn [scored_files List.filter].
  destruct (score_positive (file_score query_terms file)); cbn [map]; by rewrite IH.
Qed.

(** X5.  When the ranker returns, its result is a rearrangement of the
    entries that pass the score filter, and their scores never go up
    along it. *)
Theorem ranking_is_sorted_selection files query ranked :
  let query_terms := Str.split (Str.lower query) in
  _filter_relevant_files rt files query = Return ranked ->
  Permutation ranked (kept query_terms files) /\
  descending (map (file_score query_terms) ranked).
Proof.
  intros query_terms. unfold _filter_relevant_files. fold query_terms.
  destruct (sorted_reverse _ _) as [sorted|] eqn:Hsort; [|done].
  cbn [obind]. intros [= <-].
  pose proof (sorted_reverse_perm _ _ _ Hsort) as Hperm.
  rewrite scored_files_kept in Hperm.
  assert (map fst sorted = map (file_score query_terms) (map snd sorted)) as Hscores.
  { rewrite map_map. apply map_ext_in. intros p Hp.
    apply (Permutation_in _ Hperm) in Hp.
    by apply in_map_iff in Hp as (file & <- & _). }
  split.
  - rewrite Hperm, map_map. cbn [snd]. by rewrite map_id.
  - rewrite <- Hscores.
    apply (sorted_reverse_descending (tuple_lt rt) fst tuple_lt_true tuple_lt_false
             _ _ Hsort).
Qed.

(** X6.  When no two entries that pass the score filter have the same
    score, the ranker returns, whatever the comparison of entries does. *)
Theorem ranking_returns_without_ties files query :
  let query_terms := Str.split (Str.lower query) in
  distinct_scores (map (file_score query_terms) (kept query_terms files)) ->
  exists ranked, _filter_relevant_files rt files query = Return ranked.
Proof.
  intros query_terms Hdistinct. unfold _filter_relevant_files. fold query_terms.
  destruct (sorted_reverse_returns (tuple_lt rt) fst tuple_lt_returns
              (scored_files query_terms files)) as [sorted ->].
  - by rewrite scored_files_kept, map_map.
  - cbn [obind]. eauto.
Qed.

(** X7.  When comparing two entries with [<] raises, the entries of the
    listing are pairwise unequal, and two entries that pass the score
    filter have the same score, the ranker raises that exception. *)
Theorem ranking_raises_on_tie files query e0 :
  let query_terms := Str.split (Str.lower query) in
  (forall f g, file_lt rt f g = Raise e0) ->
  unequal_entries rt files ->
  tied (map (file_score query_terms) (kept query_terms files)) ->
  _filter_relevant_files rt files query = Raise e0.
Proof.
  intros query_terms Hunorderable Hunequal Htied.
  unfold _filter_relevant_files. fold query_terms.
  rewrite (sorted_reverse_tie (tuple_lt rt) fst tuple_lt_true tuple_lt_false
             tuple_lt_returns
             (fun p q => file_eq rt p.2 q.2 = false /\ file_eq rt q.2 p.2 = false)
             (fun p q H => conj (proj2 H) (proj1 H)) e0); [done|..].
  - intros p q Heq [Hpq _]. unfold tuple_lt.
    rewrite (Qeq_eq_bool _ _ Heq), Hpq. cbn [negb]. apply Hunorderable.
  - rewrite scored_files_kept.
    apply (pairwise_map (fun file => (file_score query_terms file, file))
             (fun p q => file_eq rt p.2 q.2 = false /\ file_eq rt q.2 p.2 = false)).
    apply pairwise_filter, Hunequal.
  - by rewrite scored_files_kept, map_map.
Qed.

End Ranking.

(** ** Effects of a resolution *)

Section Effects.
Context (rt : Runtime) (self : GitHubHandler).

Lemma fetched_calls file w :
  exists fetches,
    calls (fetched file w) = (calls w ++ map DecodedContent fetches)%list /\
    (length fetches <= 1)%nat /\
    Forall (fun f => (ContentFile.size f < 100000)%Z) fetches /\
    clock_reads (fetched file w) = clock_reads w.
Proof.
  unfold fetched. destruct (Z.ltb_spec (ContentFile.size file) 100000).
  - exists [file]. cbn. split_and!; [done|lia|by constructor|done].
  - exists []. cbn. rewrite app_nil_r. split_and!; [done|lia|done|done].
Qed.

(** The loop fetches the text of entries below the size bound only, and of
    no more entries than it is given. *)
Lemma append_file_items_calls files : forall content w,
  exists fetches,
    calls (append_file_items rt files content w).2 =
      (calls w ++ map DecodedContent fetches)%list /\
    (length fetches <= length files)%nat /\
    Forall (fun f => (ContentFile.size f < 100000)%Z) fetches.
Proof.
  induction files as [|file rest IH]; intros content w.
  - exists []. cbn. by rewrite app_nil_r.
  - cbn [append_file_items]. unfold bind. rewrite file_item_run.
    destruct (fetched_calls file w) as (first & Hfirst & Hlen & Hsmall & _).
    destruct (text_outcome rt file) as [text|e].
    + destruct (IH (content ++ [file_content_item file text
                   (utcnow_isoformat rt (clock_reads (fetched file w)))])%list
                  (tick (fetched file w))) as (more & Hmore & Hlen' & Hsmall').
      exists (first ++ more)%list. rewrite Hmore. cbn [tick calls].
      rewrite Hfirst, map_app, app_assoc, length_app.
      split_and!; [done | cbn [length]; lia | by apply Forall_app].
    + exists first. cbn [snd]. split_and!; [done | cbn [length]; lia | done].
Qed.

(** X8.  The provider calls of one resolution, in order: none when the
    identifier is falsy; otherwise the metadata fetch for the identifier,
    then at most one listing of the root, then at most five content
    fetches, each for an entry below 100,000 bytes. *)
Theorem provider_calls_of_a_resolution query context w :
  let repo_info := _extract_repo_info query context in
  exists new,
    calls (process_query rt self query context w).2 = (calls w ++ new)%list /\
    ((truthy repo_info = false /\ new = []) \/
     (truthy repo_info = true /\
      (new = [GetRepo repo_info] \/
       exists fetches,
         new = GetRepo repo_info :: GetContents "" :: map DecodedContent fetches /\
         (length fetches <= 5)%nat /\
         Forall (fun f => (ContentFile.size f < 100000)%Z) fetches))).
Proof.
  intros repo_info.
  unfold process_query, try_except. fold repo_info.
  destruct (truthy repo_info); cbn [negb].
  2: { exists []. rewrite create_error_response_run, app_nil_r.
       split; [done | by left]. }
  unfold bind at 1. unfold provider at 1.
  destruct (Github.get_repo _ _) as [repo|e].
  2: { exists [GetRepo repo_info]. rewrite create_error_response_run.
       split; [done|]. right. eauto. }
  unfold bind at 1. unfold now at 1. unfold bind at 1. unfold provider at 1.
  cbn [calls clock_reads].
  assert (forall fetches,
    ((calls w ++ [GetRepo repo_info]) ++ [GetContents ""]) ++ map DecodedContent fetches =
    calls w ++ GetRepo repo_info :: GetContents "" :: map DecodedContent fetches)%list
    as Hassoc.
  { intros fetches. by rewrite <- !app_assoc. }
  assert (forall w0 fetches,
    calls w0 = (((calls w ++ [GetRepo repo_info]) ++ [GetContents ""]) ++
                map DecodedContent fetches)%list ->
    (length fetches <= 5)%nat ->
    Forall (fun f => (ContentFile.size f < 100000)%Z) fetches ->
    exists new,
      calls w0 = (calls w ++ new)%list /\
      ((true = false /\ new = []) \/
       (true = true /\
        (new = [GetRepo repo_info] \/
         exists fetches,
           new = GetRepo repo_info :: GetContents "" :: map DecodedContent fetches /\
           (length fetches <= 5)%nat /\
           Forall (fun f => (ContentFile.size f < 100000)%Z) fetches)))) as Hdone.
  { intros w0 fetches Hcalls Hlen Hsmall. rewrite Hassoc in Hcalls.
    eexists. split; [exact Hcalls|]. right. split; [done|]. right. eauto. }
  destruct (Repository.get_contents repo "") as [search_results|e].
  2: { rewrite create_error_response_run.
       apply (Hdone _ []); [cbn; by rewrite app_nil_r | cbn; lia | done]. }
  unfold bind at 1. unfold lift at 1.
  destruct (_filter_relevant_files rt search_results query) as [relevant_files|e].
  2: { rewrite create_error_response_run.
       apply (Hdone _ []); [cbn; by rewrite app_nil_r | cbn; lia | done]. }
  match goal with |- context [append_file_items ?r ?l ?c ?w0] =>
    destruct (append_file_items_calls l c w0) as (fetches & Hcalls & Hlen & Hsmall);
    destruct (append_file_items r l c w0) as [[items|e] w'] end;
    cbn [snd calls] in Hcalls; try rewrite create_error_response_run; cbn [snd].
  all: apply (Hdone _ fetches); [done | | done].
  all: rewrite length_take in Hlen; lia.
Qed.

End Effects.

Section Timestamps.
Context (rt : Runtime) (self : GitHubHandler).

Lemma fetched_clock file w : clock_reads (fetched file w) = clock_reads w.
Proof. unfold fetched. by destruct (_ <? _)%Z. Qed.

(** The loop reads the clock once per item, after the text of the entry. *)
Lemma append_file_items_clock files : forall content w items w',
  append_file_items rt files content w = (Return items, w') ->
  clock_reads w' = (clock_reads w + length files)%nat /\
  exists new,
    items = (content ++ new)%list /\
    length new = length files /\
    forall k item,
      new !! k = Some item ->
      item_metadata item =
        github_metadata (utcnow_isoformat rt (clock_reads w + k)).
Proof.
  induction files as [|file rest IH]; intros content w items w' Hrun.
  - injection Hrun as <- <-. split; [cbn; lia|]. exists [].
    rewrite app_nil_r. split_and!; [done..|]. intros k item Hk. done.
  - cbn [append_file_items] in Hrun. unfold bind in Hrun.
    rewrite file_item_run in Hrun.
    destruct (text_outcome rt file) as [text|e]; [|done].
    apply IH in Hrun as (Hclock & new & -> & Hlen & Hstamps).
    cbn [tick clock_reads] in *. rewrite fetched_clock in *.
    split; [cbn [length]; lia|].
    eexists (_ :: new). split_and!; [by rewrite <- app_assoc | cbn; lia |].
    intros [|k] item Hk.
    + injection Hk as <-. cbn. by rewrite Nat.add_0_r.
    + cbn in Hk. rewrite (Hstamps k item Hk). do 2 f_equal. lia.
Qed.

(** X10.  For a success response the clock has been read once per item,
    and the item at position [k] carries the source "github" and the
    [k]-th of these readings. *)
Theorem success_timestamps query context w items w' :
  process_query rt self query context w = (Return items, w') ->
  success_response items = true ->
  clock_reads w' = (clock_reads w + length items)%nat /\
  forall k item,
    items !! k = Some item ->
    item_metadata item =
      {| source := "github";
         timestamp := utcnow_isoformat rt (clock_reads w + k) |}.
Proof.
  unfold process_query, try_except.
  destruct (truthy (_extract_repo_info query context)); cbn [negb].
  2: { rewrite create_error_response_run. by intros [= <- _]. }
  unfold bind at 1. unfold provider at 1.
  destruct (Github.get_repo _ _) as [repo|e].
  2: { rewrite create_error_response_run. by intros [= <- _]. }
  unfold bind at 1. unfold now at 1.
  unfold bind at 1. unfold provider at 1.
  destruct (Repository.get_contents repo "") as [search_results|e].
  2: { rewrite create_error_response_run. by intros [= <- _]. }
  unfold bind at 1. unfold lift at 1.
  destruct (_filter_relevant_files rt search_results query) as [relevant_files|e].
  2: { rewrite create_error_response_run. by intros [= <- _]. }
  match goal with |- context [append_file_items ?r ?l ?c ?w0] =>
    destruct (append_file_items r l c w0) as [[items'|e] w''] eqn:Hloop end.
  2: { rewrite create_error_response_run. by intros [= <- _]. }
  intros [= <- <-] _.
  apply append_file_items_clock in Hloop as (Hclock & new & -> & Hlen & Hstamps).
  cbn [clock_reads calls] in *. split.
  - rewrite Hclock. cbn [app length]. lia.
  - intros [|k] item Hk.
    + injection Hk as <-. cbn. by rewrite Nat.add_0_r.
    + cbn in Hk. rewrite (Hstamps k item Hk). unfold github_metadata.
      do 2 f_equal. lia.
Qed.

(** X11.  When the ranker raises, the resolver returns the one error item
    with the text of the exception; the metadata and the listing have
    been fetched, no content has, and the clock has been read twice. *)
Theorem ranking_failure_error query context w repo search_results e :
  let repo_info := _extract_repo_info query context in
  truthy repo_info = true ->
  Github.get_repo (github self) repo_info = Return repo ->
  Repository.get_contents repo "" = Return search_results ->
  _filter_relevant_files rt search_results query = Raise e ->
  process_query rt self query context w =
  (Return [ {| item_type := "error";
               item_content := ErrorMessage (exn_str e);
               item_metadata :=
                 {| source := "github";
                    timestamp := utcnow_isoformat rt (S (clock_reads w)) |} |} ],
   {| calls := calls w ++ [GetRepo repo_info; GetContents ""];
      clock_reads := S (S (clock_reads w)) |}).
Proof.
  intros repo_info Hid Hrepo Hlist Hrank.
  unfold process_query, try_except. fold repo_info. rewrite Hid. cbn [negb].
  unfold bind at 1. unfold provider at 1. rewrite Hrepo.
  unfold bind at 1. unfold now at 1.
  unfold bind at 1. unfold provider at 1. rewrite Hlist.
  unfold bind at 1. unfold lift at 1. rewrite Hrank.
  rewrite create_error_response_run. unfold tick, error_item, github_metadata.
  cbn [calls clock_reads]. by rewrite <- app_assoc.
Qed.

End Timestamps.

(** ** Identifiers read in the query *)

Section TextIdentifier.
Context (query : string) (context : option (gmap string pyval)).
Context (no_override : forall d, context = Some d -> d !! "repository" = None).

Lemma extract_from_text :
  _extract_repo_info query context =
  match Re.search query with
  | Some m => PyStr m
  | None => PyNone
  end.
Proof using no_override.
  unfold _extract_repo_info. destruct context as [d|]; [|done].
  rewrite (no_override d eq_refl). by destruct (bool_decide (d ≠ ∅)).
Qed.

(** X1.  Without a "repository" entry in the context, an identifier that
    the extractor returns is a string [owner/name] cut out of the query:
    a non-empty run of letters, digits and hyphens, a slash, and a
    non-empty run of letters, digits, hyphens, underscores and dots that
    is not followed by one more such character; and the pattern matches
    at no earlier position of the query. *)
Theorem text_identifier_shape v :
  _extract_repo_info query context = v ->
  v <> PyNone ->
  exists before owner name rest,
    query = before ++ owner ++ "/" ++ name ++ rest /\
    v = PyStr (owner ++ "/" ++ name) /\
    owner <> "" /\ Pattern.all_chars Re.owner_char owner = true /\
    name <> "" /\ Pattern.all_chars Re.name_char name = true /\
    match rest with
    | EmptyString => True
    | String c _ => Re.name_char c = false
    end /\
    forall before' after',
      query = before' ++ after' ->
      (String.length before' < String.length before)%nat ->
      ~ Pattern.starts after'.
Proof using no_override.
  rewrite extract_from_text. destruct (Re.search query) as [m|] eqn:Hsearch; [|congruence].
  intros <- _.
  apply ReFacts.search_sound in Hsearch as (before & after & Hcut & Hhere & Hleft).
  apply ReFacts.match_here_sound in Hhere
    as (owner & name & rest & -> & -> & Howner_ne & Howner & Hname_ne & Hname & Hrest).
  exists before, owner, name, rest. split_and!; done.
Qed.

(** X2.  Without a "repository" entry in the context, the extractor
    returns an identifier exactly when the pattern matches somewhere in
    the query. *)
Theorem text_identifier_exists :
  _extract_repo_info query context <> PyNone <->
  exists before after, query = before ++ after /\ Pattern.starts after.
Proof using no_override.
  rewrite extract_from_text. split.
  - destruct (Re.search query) as [m|] eqn:Hsearch; [|done]. intros _.
    apply ReFacts.search_sound in Hsearch as (before & after & Hcut & Hhere & _).
    exists before, after. split; [done|]. apply ReFacts.match_here_starts. eauto.
  - intros [m ->]%ReFacts.search_complete. done.
Qed.

End TextIdentifier.

(** ** The endpoint *)

Section Endpoint.
Context (env : Environment) (rt : Runtime) (request : MCPRequest.t).

(** X12.  With a non-empty token and a client, the endpoint answers with
    the content the resolver returns, whatever it is, and with the
    metadata whose status is "success". *)
Theorem endpoint_reports_success token client w :
  getenv env "GITHUB_TOKEN" = Some token ->
  token <> "" ->
  Github_new env token = Return client ->
  exists content w',
    process_query rt {| github := client |} (MCPRequest.query request)
      (MCPRequest.context request) w = (Return content, w') /\
    handle_mcp_query env rt request w =
      (Respond {| MCPResponse.content := content;
                  MCPResponse.metadata := success_metadata |}, w') /\
    success_metadata !! "status" = Some (PyStr "success").
Proof.
  intros Htoken Hne Hclient.
  destruct (process_query_total rt {| github := client |} (MCPRequest.query request)
              (MCPRequest.context request) w) as (content & w' & Hrun).
  exists content, w'. split; [done|]. split; [|done].
  unfold handle_mcp_query, handle_mcp_query_body, GitHubHandler_new.
  rewrite Htoken, Hclient. cbn [obind].
  apply String.eqb_neq in Hne. rewrite Hne. by rewrite Hrun.
Qed.

(** X13.  The endpoint raises only with status 500, without any provider
    call or clock reading, and only when the token is missing or empty
    (the detail is then the [str] of the inner exception) or when the
    construction of the client raises (the detail is its text). *)
Theorem endpoint_failure e w w' :
  handle_mcp_query env rt request w = (Fail e, w') ->
  HTTPException.status_code e = 500%Z /\
  w' = w /\
  (((getenv env "GITHUB_TOKEN" = None \/ getenv env "GITHUB_TOKEN" = Some "") /\
    HTTPException.detail e = http_exception_str env token_not_found) \/
   (exists token raised,
      getenv env "GITHUB_TOKEN" = Some token /\ token <> "" /\
      Github_new env token = Raise raised /\
      HTTPException.detail e = exn_str raised)).
Proof.
  unfold handle_mcp_query, handle_mcp_query_body, GitHubHandler_new.
  destruct (getenv env "GITHUB_TOKEN") as [token|] eqn:Htoken.
  2: { intros [= <- <-]. split_and!; [done..|]. left. by split; [left|]. }
  destruct (String.eqb_spec token "") as [->|Hne].
  { intros [= <- <-]. split_and!; [done..|]. left. by split; [right|]. }
  destruct (Github_new env token) as [client|raised] eqn:Hclient; cbn [obind].
  2: { intros [= <- <-]. split_and!; [done..|]. right. by exists token, raised. }
  destruct (process_query_total rt {| github := client |} (MCPRequest.query request)
              (MCPRequest.context request) w) as (content & w'' & ->).
  done.
Qed.

End Endpoint.

(** ** The further properties on the sample data *)

Lemma text_identifier_shape_witness :
  (forall d : gmap string pyval, None = Some d -> d !! "repository" = None) /\
  _extract_repo_info sample_query None = PyStr "octocat/Hello-World" /\
  PyStr "octocat/Hello-World" <> PyNone /\
  exists before owner name rest,
    sample_query = before ++ owner ++ "/" ++ name ++ rest /\
    PyStr "octocat/Hello-World" = PyStr (owner ++ "/" ++ name) /\
    Pattern.all_chars Re.owner_char owner = true /\
    Pattern.all_chars Re.name_char name = true.
Proof.
  assert (forall d : gmap string pyval, None = Some d -> d !! "repository" = None)
    as Hcontext by discriminate.
  assert (_extract_repo_info sample_query None = PyStr "octocat/Hello-World")
    as Hid by reflexivity.
  assert (PyStr "octocat/Hello-World" <> PyNone) as Hsome by discriminate.
  split; [exact Hcontext|]. split; [exact Hid|]. split; [exact Hsome|].
  destruct (text_identifier_shape sample_query None Hcontext _ Hid Hsome)
    as (before & owner & name & rest & Hcut & Hv & _ & Howner & _ & Hname & _).
  exists before, owner, name, rest. auto.
Defined.

(** In a query that gives the address of the repository the pattern
    matches, so that an identifier is returned. *)
Lemma text_identifier_exists_witness :
  let query := "https://github.com/octocat/Hello-World" in
  (forall d : gmap string pyval, None = Some d -> d !! "repository" = None) /\
  (exists before after, query = before ++ after /\ Pattern.starts after) /\
  _extract_repo_info query None <> PyNone.
Proof.
  intros query.
  assert (forall d : gmap string pyval, None = Some d -> d !! "repository" = None)
    as Hcontext by discriminate.
  assert (exists before after, query = before ++ after /\ Pattern.starts after)
    as Hmatch.
  { exists "https://github.", "com/octocat/Hello-World". split; [reflexivity|].
    exists "com", "octocat", "/Hello-World". repeat split; discriminate. }
  split; [exact Hcontext|]. split; [exact Hmatch|].
  exact (proj2 (text_identifier_exists query None Hcontext) Hmatch).
Defined.

Lemma kept_iff_match_or_bonus_witness :
  let filename := Str.lower (ContentFile.name src_dir) in
  (exists term before after,
     In term ["show"; "src"] /\ filename = before ++ term ++ after) /\
  score_positive (file_score ["show"; "src"] src_dir) = true.
Proof.
  intros filename.
  assert (exists term before after,
            In term ["show"; "src"] /\ filename = before ++ term ++ after) as Hfound.
  { exists "src", "", "". split; [right; left; reflexivity | reflexivity]. }
  split; [exact Hfound|].
  exact (proj2 (kept_iff_match_or_bonus ["show"; "src"] src_dir) (or_introl Hfound)).
Defined.

Lemma ranking_is_sorted_selection_witness :
  let query_terms := Str.split (Str.lower sample_query) in
  _filter_relevant_files pygithub sample_listing sample_query =
    Return [readme_md; license_txt] /\
  Permutation [readme_md; license_txt] (kept query_terms sample_listing) /\
  descending (map (file_score query_terms) [readme_md; license_txt]).
Proof.
  intros query_terms.
  assert (_filter_relevant_files pygithub sample_listing sample_query =
            Return [readme_md; license_txt]) as Hrank by reflexivity.
  split; [exact Hrank|].
  exact (ranking_is_sorted_selection pygithub sample_listing sample_query _ Hrank).
Defined.

Lemma ranking_returns_without_ties_witness :
  let query_terms := Str.split (Str.lower sample_query) in
  distinct_scores (map (file_score query_terms) (kept query_terms sample_listing)) /\
  exists ranked,
    _filter_relevant_files ticking sample_listing sample_query = Return ranked.
Proof.
  intros query_terms.
  assert (distinct_scores
            (map (file_score query_terms) (kept query_terms sample_listing)))
    as Hdistinct.
  { change (kept query_terms sample_listing) with [readme_md; license_txt].
    cbn [map distinct_scores pairwise]. unfold distinct_scores. cbn [pairwise].
    repeat split; repeat constructor. intros Heq. vm_compute in Heq. discriminate Heq. }
  split; [exact Hdistinct|].
  exact (ranking_returns_without_ties ticking sample_listing sample_query Hdistinct).
Defined.

Lemma ranking_raises_on_tie_witness :
  let query := "octocat/Hello-World" in
  let query_terms := Str.split (Str.lower query) in
  let files := [readme_md; contributing_md] in
  (forall f g, file_lt pygithub f g = Raise unorderable) /\
  unequal_entries pygithub files /\
  tied (map (file_score query_terms) (kept query_terms files)) /\
  _filter_relevant_files pygithub files query = Raise unorderable.
Proof.
  intros query query_terms files.
  assert (forall f g, file_lt pygithub f g = Raise unorderable) as Hlt
    by reflexivity.
  assert (unequal_entries pygithub files) as Hunequal.
  { unfold unequal_entries, files. cbn [pairwise].
    repeat split; repeat constructor; reflexivity. }
  assert (tied (map (file_score query_terms) (kept query_terms files))) as Htied.
  { change (kept query_terms files) with files. unfold files. cbn [map tied].
    left. left. reflexivity. }
  split; [exact Hlt|]. split; [exact Hunequal|]. split; [exact Htied|].
  exact (ranking_raises_on_tie pygithub files query unorderable Hlt Hunequal Htied).
Defined.

Lemma success_response_items_witness :
  let self := client (Return sample_listing) in
  let ts := "2024-01-01T00:00:00+00:00" in
  let items :=
    [ {| item_type := "repository_info";
        item_content :=
          RepositoryInfo "Hello-World" (Some "My first repository on GitHub!")
            2500 1800 None "https://github.com/octocat/Hello-World";
        item_metadata := {| source := "github"; timestamp := ts |} |};
      {| item_type := "file_content";
        item_content :=
          FileContent "README.md" "README.md"
            "https://github.com/octocat/Hello-World/blob/master/README.md"
            "Hello World!";
        item_metadata := {| source := "github"; timestamp := ts |} |};
      {| item_type := "file_content";
        item_content :=
          FileContent "LICENSE.txt" "LICENSE.txt"
            "https://github.com/octocat/Hello-World/blob/master/LICENSE.txt"
            "MIT License";
        item_metadata := {| source := "github"; timestamp := ts |} |} ] in
  let w' :=
    {| calls := [GetRepo (PyStr "octocat/Hello-World"); GetContents "";
                 DecodedContent readme_md; DecodedContent license_txt];
       clock_reads := 3 |} in
  process_query pygithub self sample_query None initial_world = (Return items, w') /\
  success_response items = true /\
  exists repo search_results relevant_files ts0 new,
    Github.get_repo (github self) (_extract_repo_info sample_query None) =
      Return repo /\
    Repository.get_contents repo "" = Return search_results /\
    _filter_relevant_files pygithub search_results sample_query =
      Return relevant_files /\
    items =
      {| item_type := "repository_info";
         item_content :=
           RepositoryInfo (Repository.name repo) (Repository.description repo)
             (Repository.stargazers_count repo) (Repository.forks_count repo)
             (Repository.language repo) (Repository.html_url repo);
         item_metadata := {| source := "github"; timestamp := ts0 |} |} :: new /\
    Forall2 (fun f item => exists text ts1,
               (((100000 <= ContentFile.size f)%Z /\ text = "File too large") \/
                ((ContentFile.size f <= 99999)%Z /\
                 exists bytes,
                   ContentFile.decoded_content f = Return bytes /\
                   decode_utf8 pygithub bytes = Return text)) /\
               item =
                 {| item_type := "file_content";
                    item_content :=
                      FileContent (ContentFile.name f) (ContentFile.path f)
                        (ContentFile.html_url f) text;
                    item_metadata := {| source := "github"; timestamp := ts1 |} |})
      (take 5 relevant_files) new.
Proof.
  intros self ts items w'.
  assert (process_query pygithub self sample_query None initial_world =
            (Return items, w')) as Hrun by reflexivity.
  assert (success_response items = true) as Hshape by reflexivity.
  split; [exact Hrun|]. split; [exact Hshape|].
  exact (success_response_items pygithub self sample_query None initial_world
           items w' Hrun Hshape).
Defined.

Lemma success_timestamps_witness :
  let self := client (Return sample_listing) in
  let items :=
    [ {| item_type := "repository_info";
        item_content :=
          RepositoryInfo "Hello-World" (Some "My first repository on GitHub!")
            2500 1800 None "https://github.com/octocat/Hello-World";
        item_metadata := {| source := "github"; timestamp := "2024-01-01T00:00:00+00:00" |} |};
      {| item_type := "file_content";
        item_content :=
          FileContent "README.md" "README.md"
            "https://github.com/octocat/Hello-World/blob/master/README.md"
            "Hello World!";
        item_metadata := {| source := "github"; timestamp := "2024-01-01T00:00:01+00:00" |} |};
      {| item_type := "file_content";
        item_content :=
          FileContent "LICENSE.txt" "LICENSE.txt"
            "https://github.com/octocat/Hello-World/blob/master/LICENSE.txt"
            "MIT License";
        item_metadata := {| source := "github"; timestamp := "2024-01-01T00:00:02+00:00" |} |} ] in
  let w' :=
    {| calls := [GetRepo (PyStr "octocat/Hello-World"); GetContents "";
                 DecodedContent readme_md; DecodedContent license_txt];
       clock_reads := 3 |} in
  process_query ticking self sample_query None initial_world = (Return items, w') /\
  success_response items = true /\
  clock_reads w' = (clock_reads initial_world + length items)%nat /\
  forall k item,
    items !! k = Some item ->
    item_metadata item =
      {| source := "github";
         timestamp := utcnow_isoformat ticking (clock_reads initial_world + k) |}.
Proof.
  intros self items w'.
  assert (process_query ticking self sample_query None initial_world =
            (Return items, w')) as Hrun by reflexivity.
  assert (success_response items = true) as Hshape by reflexivity.
  split; [exact Hrun|]. split; [exact Hshape|].
  exact (success_timestamps ticking self sample_query None initial_world
           items w' Hrun Hshape).
Defined.

Lemma ranking_failure_error_witness :
  let query := "octocat/Hello-World" in
  let files := [readme_md; contributing_md] in
  let self := client (Return files) in
  truthy (_extract_repo_info query None) = true /\
  Github.get_repo (github self) (_extract_repo_info query None) =
    Return (hello_world (Return files)) /\
  Repository.get_contents (hello_world (Return files)) "" = Return files /\
  _filter_relevant_files ticking files query = Raise unorderable /\
  process_query ticking self query None initial_world =
  (Return [ {| item_type := "error";
               item_content :=
                 ErrorMessage
                   "'<' not supported between instances of 'ContentFile' and 'ContentFile'";
               item_metadata :=
                 {| source := "github";
                    timestamp := "2024-01-01T00:00:01+00:00" |} |} ],
   {| calls := [GetRepo (PyStr "octocat/Hello-World"); GetContents ""];
      clock_reads := 2 |}).
Proof.
  intros query files self.
  assert (truthy (_extract_repo_info query None) = true) as Hid by reflexivity.
  assert (Github.get_repo (github self) (_extract_repo_info query None) =
            Return (hello_world (Return files))) as Hrepo by reflexivity.
  assert (Repository.get_contents (hello_world (Return files)) "" = Return files)
    as Hlist by reflexivity.
  assert (_filter_relevant_files ticking files query = Raise unorderable)
    as Hrank by reflexivity.
  split; [exact Hid|]. split; [exact Hrepo|]. split; [exact Hlist|].
  split; [exact Hrank|].
  exact (ranking_failure_error ticking self query None initial_world
           (hello_world (Return files)) files unorderable Hid Hrepo Hlist Hrank).
Defined.

(** A query without identifier, with a token: the endpoint answers with
    the error item under the status "success". *)
Lemma endpoint_reports_success_witness :
  let env := sample_env (Some "ghp_example") in
  let request :=
    {| MCPRequest.query := "list the files"; MCPRequest.context := None |} in
  getenv env "GITHUB_TOKEN" = Some "ghp_example" /\
  "ghp_example" <> "" /\
  Github_new env "ghp_example" = Return (github (client (Return sample_listing))) /\
  exists content w',
    process_query pygithub (client (Return sample_listing)) "list the files" None
      initial_world = (Return content, w') /\
    handle_mcp_query env pygithub request initial_world =
      (Respond {| MCPResponse.content := content;
                  MCPResponse.metadata := success_metadata |}, w') /\
    success_metadata !! "status" = Some (PyStr "success").
Proof.
  intros env request.
  assert (getenv env "GITHUB_TOKEN" = Some "ghp_example") as Htoken by reflexivity.
  assert ("ghp_example" <> "") as Hne by discriminate.
  assert (Github_new env "ghp_example" =
            Return (github (client (Return sample_listing)))) as Hclient
    by reflexivity.
  split; [exact Htoken|]. split; [exact Hne|]. split; [exact Hclient|].
  exact (endpoint_reports_success env pygithub request "ghp_example"
           (github (client (Return sample_listing))) initial_world
           Htoken Hne Hclient).
Defined.

Lemma endpoint_failure_witness :
  let env := sample_env None in
  let request :=
    {| MCPRequest.query := sample_query; MCPRequest.context := None |} in
  let e :=
    {| HTTPException.status_code := 500;
       HTTPException.detail :=
         "500: GitHub token not found in environment variables" |} in
  handle_mcp_query env pygithub request initial_world = (Fail e, initial_world) /\
  HTTPException.status_code e = 500%Z /\
  initial_world = initial_world /\
  (((getenv env "GITHUB_TOKEN" = None \/ getenv env "GITHUB_TOKEN" = Some "") /\
    HTTPException.detail e = http_exception_str env token_not_found) \/
   (exists token raised,
      getenv env "GITHUB_TOKEN" = Some token /\ token <> "" /\
      Github_new env token = Raise raised /\
      HTTPException.detail e = exn_str raised)).
Proof.
  intros env request e.
  assert (handle_mcp_query env pygithub request initial_world =
            (Fail e, initial_world)) as Hfail by reflexivity.
  split; [exact Hfail|].
  exact (endpoint_failure env pygithub request e initial_world initial_world Hfail).
Defined.
